(** * The Economist Democracy Index: regime classifier, yearly frames,
      migration matrix, world average and raw-data fetch

    A shallow embedding of [src/economist_democracy_index.py] (class [Data]).

    - Python floats are modelled by [pyfloat]: a finite value is a rational,
      next to the two infinities and NaN.  Comparisons follow IEEE 754 (every
      comparison with NaN is false).  The arithmetic on scores (the sums and
      the division of the group-wise means, the subtraction of the index
      change) is that of binary64: the exact result rounded to the nearest
      double, ties to even ([round64]).  The cells of the migration matrix
      hold counts of rows, which binary64 adds without rounding as long as
      the sums stay below 2^53; their sums are modelled as exact ([fadd]).
      The sign of zero is not modelled.
    - A pandas [DataFrame] in long form is a list of rows, in row order.
      [Data().df] (the frame [_setup_data] loads from the CSV file) is passed
      explicitly as the argument [df] of the static methods that build it.
    - A one-dimensional numpy array is a list; a 5x5 float array is a list of
      lists of [pyfloat].
    - A raised exception is the [Raise] alternative of [pyresult]. *)

From Stdlib Require Import QArith Lqa.
From stdpp Require Import gmap strings list fin_maps sorting pretty.

Local Open Scope Z_scope.

(** ** Python floats *)

Inductive pyfloat : Type :=
| Finite (q : Q)
| PosInf
| NegInf
| NaN.

(** [a <= b] on floats. *)
Definition fle (a b : pyfloat) : bool :=
  match a, b with
  | NaN, _ | _, NaN => false
  | NegInf, _ => true
  | _, PosInf => true
  | Finite x, Finite y => Qle_bool x y
  | _, _ => false
  end.

(** [a >= b] on floats. *)
Definition fge (a b : pyfloat) : bool := fle b a.

(** [a + b] on the cells of the migration matrix, which hold counts of
    rows: finite sums are exact. *)
Definition fadd (a b : pyfloat) : pyfloat :=
  match a, b with
  | NaN, _ | _, NaN => NaN
  | PosInf, NegInf | NegInf, PosInf => NaN
  | PosInf, _ | _, PosInf => PosInf
  | NegInf, _ | _, NegInf => NegInf
  | Finite x, Finite y => Finite (x + y)
  end.

Definition isnan (a : pyfloat) : bool :=
  match a with NaN => true | _ => false end.

(** [float(n)] for a non-negative integer [n]. *)
Definition float_of_nat (n : nat) : pyfloat := Finite (inject_Z (Z.of_nat n)).

(** [np.sum] of a one-dimensional float array. *)
Definition np_sum (l : list pyfloat) : pyfloat :=
  fold_left fadd l (Finite 0).

(** ** Binary64 arithmetic *)

(** [floor (log2 (n / d))] for positive [n] and [d]. *)
Definition floor_log2 (n d : Z) : Z :=
  let l := Z.log2 n - Z.log2 d in
  if 0 <=? l
  then (if d * 2 ^ l <=? n then l else l - 1)
  else (if d <=? n * 2 ^ (- l) then l else l - 1).

(** The integer nearest to [n / d], and the even one of the two when both
    are equally near ([n >= 0] and [d > 0]). *)
Definition div_half_even (n d : Z) : Z :=
  let q := n / d in
  match 2 * (n mod d) ?= d with
  | Lt => q
  | Gt => q + 1
  | Eq => if Z.even q then q else q + 1
  end.

(** The double nearest to the rational [q], ties to even: a multiple
    [m * 2^e] of the unit in the last place, with [m] at most [2^53] and
    [e] at least [-1074] (subnormal numbers); an infinity when that is
    [2^1024] or more. *)
Definition round64 (q : Q) : pyfloat :=
  let q := Qred q in
  let n := Z.abs (Qnum q) in
  let d := Z.pos (Qden q) in
  if n =? 0 then Finite 0
  else
    let e := Z.max (floor_log2 n d - 52) (-1074) in
    let m := if 0 <=? e then div_half_even n (d * 2 ^ e)
             else div_half_even (n * 2 ^ (- e)) d in
    if 1024 <=? Z.log2 m + e
    then (if Qnum q <? 0 then NegInf else PosInf)
    else
      let s := if Qnum q <? 0 then - m else m in
      Finite (if 0 <=? e then inject_Z (s * 2 ^ e)
              else Qred (s # Z.to_pos (2 ^ (- e)))).

(** [a + b] in binary64. *)
Definition fadd64 (a b : pyfloat) : pyfloat :=
  match a, b with
  | NaN, _ | _, NaN => NaN
  | PosInf, NegInf | NegInf, PosInf => NaN
  | PosInf, _ | _, PosInf => PosInf
  | NegInf, _ | _, NegInf => NegInf
  | Finite x, Finite y => round64 (x + y)
  end.

(** [a - b] in binary64. *)
Definition fsub (a b : pyfloat) : pyfloat :=
  match a, b with
  | NaN, _ | _, NaN => NaN
  | PosInf, PosInf | NegInf, NegInf => NaN
  | PosInf, _ | _, NegInf => PosInf
  | NegInf, _ | _, PosInf => NegInf
  | Finite x, Finite y => round64 (x - y)
  end.

(** The double that the integer [n] is converted to. *)
Definition float64_of_nat (n : nat) : pyfloat :=
  round64 (inject_Z (Z.of_nat n)).

(** [a / n] in binary64, for a positive integer count [n]. *)
Definition fdiv_count (a : pyfloat) (n : nat) : pyfloat :=
  match a, float64_of_nat n with
  | NaN, _ => NaN
  | Finite x, Finite c => round64 (x / c)
  | Finite _, _ => Finite 0
  | _, Finite _ => a
  | _, _ => NaN
  end.

(** ** Exceptions *)

Inductive exn : Type :=
| ValueError (msg : string)
| IndexError (msg : string).

Inductive pyresult (A : Type) : Type :=
| Ok (a : A)
| Raise (e : exn).
Arguments Ok {A} a.
Arguments Raise {A} e.

#[global] Instance pyresult_ret : MRet pyresult := fun A a => Ok a.

#[global] Instance pyresult_bind : MBind pyresult := fun A B k r =>
  match r with
  | Ok a => k a
  | Raise e => Raise e
  end.

(** [for x in l: s = body(x, s)], stopping at the first exception. *)
Fixpoint for_each {A S} (l : list A) (body : A -> S -> pyresult S) (s : S)
  : pyresult S :=
  match l with
  | [] => Ok s
  | x :: l' => s' ← body x s; for_each l' body s'
  end.

(** [enumerate(l)]. *)
Definition enumerate {A} (l : list A) : list (nat * A) :=
  zip (seq 0 (length l)) l.

(** ** Data frames *)

Record Row : Type := mkRow {
  Region : string;
  Country : string;
  RegimeType : string;
  Year : Z;
  DemocracyIndex : pyfloat
}.

Abbreviation DataFrame := (list Row).

(** The table [pd.read_csv] returns, once the [' rank'] columns are dropped:
    the identifier columns and one column of scores per year.  A cell that a
    record lacks reads as NaN, as [read_csv] fills it. *)
Record RawRow : Type := mkRawRow {
  raw_region : string;
  raw_country : string;
  raw_regime : string;
  raw_scores : list pyfloat
}.

Record RawTable : Type := mkRawTable {
  year_columns : list Z;
  raw_rows : list RawRow
}.

(** ** numpy arrays *)

Definition np_zeros (rows cols : nat) : list (list pyfloat) :=
  replicate rows (replicate cols (Finite 0)).

(** [a == s] for an array of strings [a]: element-wise. *)
Definition np_eq (a : list string) (s : string) : list bool :=
  map (fun x => String.eqb x s) a.

(** [a & b] for two boolean arrays: element-wise, after broadcasting.  Two
    shapes [(p,)] and [(q,)] broadcast when [p = q] or one of them is 1;
    otherwise numpy raises ValueError. *)
Definition np_and (a b : list bool) : pyresult (list bool) :=
  if decide (length a = length b) then Ok (zip_with andb a b)
  else match a, b with
       | [x], _ => Ok (map (andb x) b)
       | _, [y] => Ok (map (fun x => andb x y) a)
       | _, _ =>
           Raise (ValueError "operands could not be broadcast together")
       end.

(** [a.sum()] for a boolean array: the number of [True] entries. *)
Definition np_count (a : list bool) : nat :=
  length (filter (fun x => x = true) a).

(** [m[i, j] = v]. *)
Definition set_item (m : list (list pyfloat)) (i j : nat) (v : pyfloat)
  : list (list pyfloat) :=
  alter (fun row => <[j := v]> row) i m.

(** [m[i, j]]. *)
Definition get_item (m : list (list pyfloat)) (i j : nat) : option pyfloat :=
  row ← m !! i; row !! j.

(** [m[:n, :n]]. *)
Definition block (n : nat) (m : list (list pyfloat)) : list (list pyfloat) :=
  map (take n) (take n m).

(** [np.sum(b, axis=1)]: one sum per row. *)
Definition sum_axis1 (b : list (list pyfloat)) : list pyfloat :=
  map np_sum b.

(** [b[:, j]]. *)
Definition column (j : nat) (b : list (list pyfloat)) : list pyfloat :=
  omap (fun row => row !! j) b.

(** [np.sum(b, axis=0)]: one sum per column; [b] has [cols] columns. *)
Definition sum_axis0 (cols : nat) (b : list (list pyfloat)) : list pyfloat :=
  map (fun j => np_sum (column j b)) (seq 0 cols).

(** [m[i, :n] = v] for a vector [v] of length [n]. *)
Definition set_row_prefix (m : list (list pyfloat)) (i n : nat)
    (v : list pyfloat) : list (list pyfloat) :=
  alter (fun row => v ++ drop n row) i m.

(** [m[:n, j] = v] for a vector [v] of length [n]. *)
Definition set_col_prefix (m : list (list pyfloat)) (n j : nat)
    (v : list pyfloat) : list (list pyfloat) :=
  zip_with (fun row x => <[j := x]> row) (take n m) v ++ drop n m.

(** ** Group-wise means *)

(** One step of the compensated (Kahan) summation with which pandas
    accumulates a group: on the running sum [sumx] and its compensation,
    [y = val - compensation], [t = sumx + y],
    [compensation = t - sumx - y], [sumx = t]; a compensation that comes
    out as NaN (after an infinity) is reset to zero. *)
Definition kahan_step (s : pyfloat * pyfloat) (val : pyfloat)
  : pyfloat * pyfloat :=
  let y := fsub val s.2 in
  let t := fadd64 s.1 y in
  let c := fsub (fsub t s.1) y in
  (t, if isnan c then Finite 0 else c).

(** The sum that the steps leave for the values [l], taken in order. *)
Definition kahan_sum (l : list pyfloat) : pyfloat :=
  (fold_left kahan_step l (Finite 0, Finite 0)).1.

(** [df.groupby(key)["DemocracyIndex"].mean()]: one pass over the rows that
    keeps, per group label, the running sum with its compensation and the
    number of observations; NaN values are skipped; at the end the sum of a
    group is divided by its number of observations, and a group without
    observations has mean NaN. *)
Section groupby.
Context `{Countable K}.

Definition group_mean_step (key : Row -> K)
    (acc : gmap K (pyfloat * pyfloat * nat)) (r : Row)
  : gmap K (pyfloat * pyfloat * nat) :=
  let '(s, nobs) := default ((Finite 0, Finite 0), 0%nat) (acc !! key r) in
  if isnan (DemocracyIndex r) then <[key r := (s, nobs)]> acc
  else <[key r := (kahan_step s (DemocracyIndex r), S nobs)]> acc.

Definition group_mean_finish (s : pyfloat * pyfloat * nat) : pyfloat :=
  match s.2 with
  | O => NaN
  | S _ => fdiv_count s.1.1 s.2
  end.

Definition groupby_mean (key : Row -> K) (df : DataFrame) : gmap K pyfloat :=
  group_mean_finish <$> fold_left (group_mean_step key) df ∅.
End groupby.

(** The order of the rows of a frame indexed by year. *)
Definition year_le (a b : Z * pyfloat) : Prop := a.1 ≤ b.1.

#[global] Instance year_le_dec : RelDecision year_le.
Proof. intros a b. unfold year_le. apply _. Defined.

(** ** Fetching the raw data *)

Inductive cell : Type :=
| CStr (s : string)
| CNum (x : pyfloat).

Record HtmlTable : Type := mkHtmlTable {
  columns : list string;
  body : list (list cell)
}.

(** What the fetch does to the outside world, in order. *)
Inductive event : Type :=
| PageFetched (title : string)
| CsvWritten (path : string) (t : HtmlTable).

(** [s.replace(old, new)] for a non-empty [old]: [skip] characters of a
    match just replaced are still to be dropped. *)
Fixpoint str_replace_from (old new : string) (skip : nat) (s : string)
  : string :=
  match s with
  | EmptyString => EmptyString
  | String c s' =>
      match skip with
      | S k => str_replace_from old new k s'
      | O =>
          if String.prefix old s
          then new +:+ str_replace_from old new (String.length old - 1) s'
          else String c (str_replace_from old new 0 s')
      end
  end.

Definition str_replace (old new s : string) : string :=
  str_replace_from old new 0 s.

(** The soft hyphen U+00AD, in UTF-8. *)
Definition soft_hyphen : string :=
  String (Ascii.ascii_of_nat 194)
    (String (Ascii.ascii_of_nat 173) EmptyString).

(** [l[i]]. *)
Definition getitem {A} (l : list A) (i : nat) : pyresult A :=
  match l !! i with
  | Some x => Ok x
  | None => Raise (IndexError "list index out of range")
  end.

(** [pd.read_html] returns the tables of a page, and raises ValueError
    rather than return an empty list. *)
Definition read_html (html : list HtmlTable) : pyresult (list HtmlTable) :=
  match html with
  | [] => Raise (ValueError "No tables found")
  | _ => Ok html
  end.

(** ** Geographic frames *)

(** [a - b] for two float arrays: element-wise, after broadcasting. *)
Definition np_sub (a b : list pyfloat) : pyresult (list pyfloat) :=
  if decide (length a = length b) then Ok (zip_with fsub a b)
  else match a, b with
       | [x], _ => Ok (map (fsub x) b)
       | _, [y] => Ok (map (fun x => fsub x y) a)
       | _, _ =>
           Raise (ValueError "operands could not be broadcast together")
       end.

(** [df[name] = v] for an array [v]: a new column, and ValueError unless
    [v] has one value per row. *)
Definition set_column {A} (df : list A) (v : list pyfloat)
  : pyresult (list (A * pyfloat)) :=
  if decide (length v = length df) then Ok (zip df v)
  else Raise (ValueError
                ("Length of values (" +:+ pretty (length v)
                 +:+ ") does not match length of index ("
                 +:+ pretty (length df) +:+ ")")).

(** A record of the countries shapefile: of its columns, the name and the
    geometry (an opaque value, here a number). *)
Record ShapeRow : Type := mkShapeRow {
  NAME : string;
  geometry : nat
}.

(** A row of the merged frame: the columns of the shape, then the columns
    of the index data; these are missing ([None], and NaN for the score)
    when no data row matched. *)
Record GeoRow : Type := mkGeoRow {
  geo_name : string;
  geo_geometry : nat;
  geo_region : option string;
  geo_country : option string;
  geo_regime : option string;
  geo_year : option Z;
  geo_index : pyfloat
}.

(** A shape joined with a data row, and a shape without data. *)
Definition geo_matched (c : ShapeRow) (r : Row) : GeoRow :=
  mkGeoRow (NAME c) (geometry c) (Some (Region r)) (Some (Country r))
    (Some (RegimeType r)) (Some (Year r)) (DemocracyIndex r).

Definition geo_unmatched (c : ShapeRow) : GeoRow :=
  mkGeoRow (NAME c) (geometry c) None None None None NaN.

(** [x] after [replace(to_replace=..., value=...)] with two lists: the value
    paired with the first entry of [to_replace] equal to [x], else [x]. *)
Definition replace_value (to_replace value : list string) (x : string)
  : string :=
  match list_find (fun p : string * string => p.1 = x) (zip to_replace value)
  with
  | Some (_, (_, v)) => v
  | None => x
  end.

(** [left.merge(right, left_on="NAME", right_on="Country", how="left")]: the
    rows of [left] in order, each with every matching row of [right] in
    order, or once with the data missing when none matches. *)
Definition merge_left (left : list ShapeRow) (right : DataFrame)
  : list GeoRow :=
  flat_map
    (fun c =>
       match filter (fun r => Country r = NAME c) right with
       | [] => [geo_unmatched c]
       | rs => map (geo_matched c) rs
       end)
    left.

(** The order of the rows of a frame indexed by region and year: by region
    (the categories of the column, in lexicographic order), then by year. *)
Definition region_year_le (a b : string * Z * pyfloat) : Prop :=
  String.compare a.1.1 b.1.1 = Lt \/ (a.1.1 = b.1.1 /\ a.1.2 ≤ b.1.2).

#[global] Instance region_year_le_dec : RelDecision region_year_le.
Proof. intros a b. unfold region_year_le. apply _. Defined.

(** ** The class [Data] *)

Module Data.

(** The long-form row of record [r] for the [k]-th year column, of year
    [y]. *)
Definition melt_row (k : nat) (y : Z) (r : RawRow) : Row :=
  mkRow (raw_region r) (raw_country r) (raw_regime r) y
    (nth k (raw_scores r) NaN).

(** [_setup_data]: [melt] turns the table into long form, one row per
    record and year column, column after column, each in record order. *)
Definition _setup_data (csv : RawTable) : DataFrame :=
  flat_map (fun '(k, y) => map (melt_row k y) (raw_rows csv))
    (enumerate (year_columns csv)).

(** [filter_by_year]: [df[df["Year"] == year]]. *)
Definition filter_by_year (df : DataFrame) (year : Z) : DataFrame :=
  filter (fun r => Year r = year) df.

Definition assign_regime_type (democracy_index : pyfloat) : string :=
  let regime_type := "Authoritarian" in
  if fge democracy_index (Finite 8.0) then "Full democracy"
  else if fge democracy_index (Finite 6.0) then "Flawed democracy"
  else if fge democracy_index (Finite 4.0) then "Hybrid regime"
  else regime_type.

(** [df["RegimeType"] = df["DemocracyIndex"].apply(assign_regime_type)]. *)
Definition remap_regime_type (r : Row) : Row :=
  mkRow (Region r) (Country r) (assign_regime_type (DemocracyIndex r))
    (Year r) (DemocracyIndex r).

Definition get_yearly_data (df : DataFrame) (year : Z) : DataFrame :=
  let df := filter (fun r => Year r = year) df in
  map remap_regime_type df.

Definition regimes : list string :=
  ["Authoritarian"; "Hybrid regime"; "Flawed democracy"; "Full democracy"].

Definition get_migration_matrix (df : DataFrame) (start_year end_year : Z)
  : pyresult (list (list pyfloat)) :=
  let df1 := get_yearly_data df start_year in
  let df2 := get_yearly_data df end_year in
  let n_regimes := length regimes in
  let m := np_zeros (n_regimes + 1) (n_regimes + 1) in
  m ← for_each (enumerate regimes) (fun '(i, r1) m =>
         for_each (enumerate regimes) (fun '(j, r2) m =>
           both ← np_and (np_eq (map RegimeType df1) r1)
                         (np_eq (map RegimeType df2) r2);
           Ok (set_item m i j (float_of_nat (np_count both)))) m) m;
  let m := set_item m n_regimes n_regimes NaN in
  let m := set_row_prefix m n_regimes n_regimes
             (sum_axis0 n_regimes (block n_regimes m)) in
  let m := set_col_prefix m n_regimes n_regimes
             (sum_axis1 (block n_regimes m)) in
  Ok m.

(** [get_world_average]: the mean score of every year, as rows
    [(Year, DemocracyIndex)] in increasing order of the year. *)
Definition get_world_average (df : DataFrame) : list (Z * pyfloat) :=
  merge_sort year_le (map_to_list (groupby_mean Year df)).

Definition rename_columns (t : HtmlTable) : HtmlTable :=
  mkHtmlTable
    (map (fun c => if String.eqb c "Regime type" then "RegimeType" else c)
       (columns t))
    (body t).

Definition clean_cell (x : cell) : cell :=
  match x with
  | CStr s =>
      CStr (str_replace
              ("Latin America and the Carib" +:+ soft_hyphen +:+ "bean")
              "Latin America and the Caribbean"
              (str_replace ("Asia and Austral" +:+ soft_hyphen +:+ "asia")
                 "Asia and Australasia" s))
  | other => other
  end.

(** [get_raw_data]; [html] is the page that [wp.page(...).html()]
    returns, given by the tables it holds.  The result is the list of
    events, and the value or exception the call ends with. *)
Definition get_raw_data (html : list HtmlTable)
  : list event * pyresult unit :=
  let fetched := [PageFetched "The_Economist_Democracy_Index"] in
  match tables ← read_html html; getitem tables 5 with
  | Ok df =>
      let df := rename_columns df in
      let df := mkHtmlTable (columns df) (map (map clean_cell) (body df)) in
      (fetched ++ [CsvWritten "data/raw/democracy_index.csv" df], Ok tt)
  | Raise (IndexError _) =>
      (fetched,
       Raise (ValueError "The expected table was not found on the Wikipedia."))
  | Raise e => (fetched, Raise e)
  end.

(** [_filter]: [df[df[key].isin(values)]]; [key] is the column, given by
    its accessor. *)
Definition _filter (df : DataFrame) (key : Row -> string)
    (values : list string) : DataFrame :=
  filter (fun r => key r ∈ values) df.

Definition filter_by_region (df : DataFrame) (regions : list string)
  : DataFrame :=
  _filter df Region regions.

Definition filter_by_country (df : DataFrame) (countries : list string)
  : DataFrame :=
  _filter df Country countries.

Definition filter_by_regime (df : DataFrame) (regimes : list string)
  : DataFrame :=
  _filter df RegimeType regimes.

(** [get_region_averages]: the mean score of every region and year that
    occur together, as rows [(Region, Year, DemocracyIndex)]. *)
Definition get_region_averages (df : DataFrame)
  : list (string * Z * pyfloat) :=
  merge_sort region_year_le
    (map_to_list (groupby_mean (fun r => (Region r, Year r)) df)).

Definition to_replace : list string :=
  ["Bosnia and Herz."; "Côte d'Ivoire"; "United States of America";
   "Central African Rep."; "Eq. Guinea"; "Congo"; "eSwatini";
   "Czechia"; "Dominican Rep."; "Dem. Rep. Congo"; "Timor-Leste";
   "Greenland"; "Falkland Is."].

Definition value : list string :=
  ["Bosnia and Herzegovina"; "Ivory Coast"; "United States";
   "Central African Republic"; "Equatorial Guinea";
   "Republic of the Congo"; "Eswatini"; "Czech Republic";
   "Dominican Republic"; "Democratic Republic of the Congo";
   "East Timor"; "Denmark"; "Argentina"].

(** [get_merged_dataframe]; [countries] is the shapefile that
    [gpd.read_file] returns and [df] is [Data().df]. *)
Definition get_merged_dataframe (countries : list ShapeRow) (df : DataFrame)
  : list GeoRow :=
  let data := df in
  let countries :=
    map (fun c => mkShapeRow (replace_value to_replace value (NAME c))
                    (geometry c))
      countries in
  merge_left countries data.

(** [df["RegimeType"] = df["DemocracyIndex"].apply(assign_regime_type)] on
    the merged frame. *)
Definition remap_geo_regime_type (g : GeoRow) : GeoRow :=
  mkGeoRow (geo_name g) (geo_geometry g) (geo_region g) (geo_country g)
    (Some (assign_regime_type (geo_index g))) (geo_year g) (geo_index g).

Definition get_yearly_geographic_data (countries : list ShapeRow)
    (df : DataFrame) (year : Z) : list GeoRow :=
  let df := get_merged_dataframe countries df in
  let df := filter (fun g => geo_name g ≠ "Antarctica") df in
  let df := filter (fun g => geo_year g = Some year) df in
  map remap_geo_regime_type df.

Definition get_index_change_geographic_data (countries : list ShapeRow)
    (df : DataFrame) (start_year end_year : Z)
  : pyresult (list (GeoRow * pyfloat)) :=
  let df := get_merged_dataframe countries df in
  let df := filter (fun g => geo_name g ≠ "Antarctica") df in
  index_change ←
    np_sub
      (map geo_index (filter (fun g => geo_year g = Some end_year) df))
      (map geo_index (filter (fun g => geo_year g = Some start_year) df));
  let df := filter (fun g => geo_year g = Some end_year) df in
  set_column df index_change.

End Data.

(** ** Vocabulary of the specification *)

(** The rank of a regime category in the order Authoritarian < Hybrid regime
    < Flawed democracy < Full democracy: its index in [Data.regimes]. *)
Definition regime_rank (r : string) : option nat :=
  fst <$> list_find (fun x => x = r) Data.regimes.

(** The category of index [i]. *)
Definition regime (i : nat) : string := nth i Data.regimes "".

(** The shapes [(p,)] and [(q,)] broadcast. *)
Definition broadcastable (p q : nat) : Prop :=
  p = q \/ p = 1%nat \/ q = 1%nat.

#[global] Instance broadcastable_dec p q : Decision (broadcastable p q).
Proof. unfold broadcastable. apply _. Defined.

(** The value of [a & b] when the shapes broadcast. *)
Definition broadcast_and (a b : list bool) : list bool :=
  if decide (length a = length b) then zip_with andb a b
  else match a, b with
       | [x], _ => map (andb x) b
       | _, [y] => map (fun x => andb x y) a
       | _, _ => []
       end.

(** The number [m[i, j]] receives for the categories [r1] and [r2]. *)
Definition pair_count (col1 col2 : list string) (r1 r2 : string) : nat :=
  np_count (broadcast_and (np_eq col1 r1) (np_eq col2 r2)).

(** The 5x5 matrix with block cells [c i j], the sums of the block rows in
    the last column, the sums of the block columns in the last row, and NaN
    in the corner. *)
Definition matrix_of_counts (c : nat -> nat -> nat) : list (list pyfloat) :=
  let f := float_of_nat in
  [[f (c 0 0); f (c 0 1); f (c 0 2); f (c 0 3);
    f (c 0 0 + c 0 1 + c 0 2 + c 0 3)];
   [f (c 1 0); f (c 1 1); f (c 1 2); f (c 1 3);
    f (c 1 0 + c 1 1 + c 1 2 + c 1 3)];
   [f (c 2 0); f (c 2 1); f (c 2 2); f (c 2 3);
    f (c 2 0 + c 2 1 + c 2 2 + c 2 3)];
   [f (c 3 0); f (c 3 1); f (c 3 2); f (c 3 3);
    f (c 3 0 + c 3 1 + c 3 2 + c 3 3)];
   [f (c 0 0 + c 1 0 + c 2 0 + c 3 0); f (c 0 1 + c 1 1 + c 2 1 + c 3 1);
    f (c 0 2 + c 1 2 + c 2 2 + c 3 2); f (c 0 3 + c 1 3 + c 2 3 + c 3 3);
    NaN]]%nat.

(** The sum of the sixteen block cells [c i j]. *)
Definition block_total (c : nat -> nat -> nat) : nat :=
  sum_list (map (fun i => sum_list (map (c i) (seq 0 4))) (seq 0 4)).

(** The number of row positions at which the first frame has category [r1]
    and the second frame has category [r2]. *)
Definition positional_count (df1 df2 : DataFrame) (r1 r2 : string) : nat :=
  length (filter (fun p : Row * Row =>
                    RegimeType p.1 = r1 /\ RegimeType p.2 = r2)
            (zip df1 df2)).

(** The category of country [c] in a yearly frame, found by its name. *)
Definition category_of (df : DataFrame) (c : string) : option string :=
  RegimeType <$> head (filter (fun r => Country r = c) df).

(** The countries of either frame, each once. *)
Definition countries_of (df1 df2 : DataFrame) : list string :=
  remove_dups (map Country df1 ++ map Country df2).

(** The number of countries whose category is [r1] in the first frame and
    [r2] in the second. *)
Definition countries_moving (df1 df2 : DataFrame) (r1 r2 : string) : nat :=
  length (filter (fun c => category_of df1 c = Some r1 /\
                           category_of df2 c = Some r2)
            (countries_of df1 df2)).

(** The matrix of two empty frames. *)
Definition zero_matrix : list (list pyfloat) :=
  [[Finite 0; Finite 0; Finite 0; Finite 0; Finite 0];
   [Finite 0; Finite 0; Finite 0; Finite 0; Finite 0];
   [Finite 0; Finite 0; Finite 0; Finite 0; Finite 0];
   [Finite 0; Finite 0; Finite 0; Finite 0; Finite 0];
   [Finite 0; Finite 0; Finite 0; Finite 0; NaN]].

(** A frame whose stored regime labels are replaced by [label]. *)
Definition relabel (label : Row -> string) (r : Row) : Row :=
  mkRow (Region r) (Country r) (label r) (Year r) (DemocracyIndex r).


(** The scores of the group [k] that the mean takes into account. *)
Definition observed {K} `{EqDecision K} (key : Row -> K) (k : K)
    (df : DataFrame) : list pyfloat :=
  filter (fun v => isnan v = false)
    (map DemocracyIndex (filter (fun r => key r = k) df)).

Definition is_fetch (ev : event) : bool :=
  match ev with PageFetched _ => true | CsvWritten _ _ => false end.

(** ** Sample data *)

(** Three countries and two years. *)
Definition sample_csv : RawTable :=
  mkRawTable [2006; 2008]
    [mkRawRow "Western Europe" "Norway" "Full democracy"
       [Finite 9.55; Finite 9.68];
     mkRawRow "Eastern Europe and Central Asia" "Albania" "Flawed democracy"
       [Finite 5.91; Finite 8.01];
     mkRawRow "Asia and Australasia" "Laos" "Authoritarian"
       [Finite 2.10; Finite 2.10]].




(** A long-form frame with two rows in one year and three in the other. *)
Definition uneven_df : DataFrame :=
  [mkRow "Western Europe" "Norway" "Full democracy" 2006 (Finite 9.55);
   mkRow "Western Europe" "Sweden" "Full democracy" 2006 (Finite 9.88);
   mkRow "Western Europe" "Norway" "Full democracy" 2008 (Finite 9.68);
   mkRow "Western Europe" "Sweden" "Full democracy" 2008 (Finite 9.88);
   mkRow "Western Europe" "Iceland" "Full democracy" 2008 (Finite 9.65)].

(** ** Vocabulary of the further properties *)

(** The row that the yearly frame of a loaded table holds for the record
    [r]: the score of column [k], and the category of that score. *)
Definition yearly_row (k : nat) (y : Z) (r : RawRow) : Row :=
  mkRow (raw_region r) (raw_country r)
    (Data.assign_regime_type (nth k (raw_scores r) NaN)) y
    (nth k (raw_scores r) NaN).

(** The table with the records that satisfy [P], and the same columns. *)
Definition keep_records (P : RawRow -> Prop) `{!forall r, Decision (P r)}
    (csv : RawTable) : RawTable :=
  mkRawTable (year_columns csv) (filter P (raw_rows csv)).

(** A row without its stored regime type. *)
Definition unlabelled (r : Row) : string * string * Z * pyfloat :=
  (Region r, Country r, Year r, DemocracyIndex r).

(** The mean of the scores that are not NaN; NaN when there is none. *)
Definition mean_of_observed (l : list pyfloat) : pyfloat :=
  match l with
  | [] => NaN
  | _ => fdiv_count (kahan_sum l) (length l)
  end.

(** [m.T] for a matrix given by its rows. *)
Definition transpose (m : list (list pyfloat)) : list (list pyfloat) :=
  map (fun j => column j m) (seq 0 (length (default [] (head m)))).

(** The name under which the data lists the country that the shapefile
    calls [x]. *)
Definition alias (x : string) : string :=
  replace_value Data.to_replace Data.value x.

Definition aliased (c : ShapeRow) : ShapeRow :=
  mkShapeRow (alias (NAME c)) (geometry c).

(** The rows of the shape [c] joined with its rows of the year [y],
    Antarctica left out. *)
Definition yearly_block (y : Z) (df : DataFrame) (c : ShapeRow)
  : list GeoRow :=
  if decide (NAME c = "Antarctica") then []
  else map (geo_matched c)
         (filter (fun r => Country r = NAME c /\ Year r = y) df).

(** The rows of the year [y] in the merged frame, Antarctica left out. *)
Definition merged_year (countries : list ShapeRow) (df : DataFrame) (y : Z)
  : list GeoRow :=
  filter (fun g => geo_year g = Some y)
    (filter (fun g => geo_name g ≠ "Antarctica")
       (Data.get_merged_dataframe countries df)).

(** The shape [c] joined with its rows of the yearly frame of [y]. *)
Definition yearly_join (y : Z) (df : DataFrame) (c : ShapeRow)
  : list GeoRow :=
  if decide (NAME c = "Antarctica") then []
  else map (geo_matched c)
         (filter (fun r => Country r = NAME c) (Data.get_yearly_data df y)).

(** [g] and [g'] join one shape with a row of the year [e] and a row of
    the year [s] of the same country. *)
Definition same_country_rows (df : DataFrame) (s e : Z) (g g' : GeoRow)
  : Prop :=
  exists c r1 r2,
    g = geo_matched c r2 /\ g' = geo_matched c r1 /\
    r1 ∈ df /\ r2 ∈ df /\
    Country r1 = NAME c /\ Year r1 = s /\ Country r2 = NAME c /\ Year r2 = e.

(** The first byte of the UTF-8 soft hyphen. *)
Definition soft_hyphen_byte : Ascii.ascii := Ascii.ascii_of_nat 194.

Definition has_byte (c : Ascii.ascii) (s : string) : Prop :=
  c ∈ String.list_ascii_of_string s.

(** The table [get_raw_data] writes for the table [t] it read. *)
Definition written_table (t : HtmlTable) : HtmlTable :=
  mkHtmlTable (columns (Data.rename_columns t))
    (map (map Data.clean_cell) (body t)).

(** A cell that cleaning leaves as it is: a number, or a text without the
    first byte of a soft hyphen. *)
Definition clean_already (x : cell) : Prop :=
  match x with
  | CNum _ => True
  | CStr s => ~ has_byte soft_hyphen_byte s
  end.

(** Four shapes: two with data, one renamed by the merge, and Antarctica. *)
Definition sample_shapes : list ShapeRow :=
  [mkShapeRow "Norway" 1; mkShapeRow "Antarctica" 2;
   mkShapeRow "Greenland" 3; mkShapeRow "Albania" 4].

(** A table as the page holds it, and a page with six copies of it. *)
Definition sample_table : HtmlTable :=
  mkHtmlTable ["Country"; "Regime type"; "2006"]
    [[CStr "Norway"; CStr "Full democracy"; CNum (Finite 9.55)]].

Definition sample_page : list HtmlTable := replicate 6 sample_table.

(** * Properties *)

(** ** Floats *)

Lemma Qle_bool_false (x y : Q) : Qle_bool x y = false <-> (y < x)%Q.
Proof.
  split; intros Hxy.
  - apply Qnot_le_lt. intros Hle. apply Qle_bool_iff in Hle. congruence.
  - destruct (Qle_bool x y) eqn:E; [|reflexivity].
    apply Qle_bool_iff in E. apply Qle_not_lt in E. contradiction.
Qed.

Lemma fle_trans (a b c : pyfloat) :
  fle a b = true -> fle b c = true -> fle a c = true.
Proof.
  destruct a, b, c; simpl; try done.
  rewrite !Qle_bool_iff. apply Qle_trans.
Qed.

Lemma fadd_float_of_nat (a b : nat) :
  fadd (float_of_nat a) (float_of_nat b) = float_of_nat (a + b).
Proof.
  unfold float_of_nat, inject_Z. simpl. unfold Qplus. simpl.
  f_equal. f_equal. lia.
Qed.

(** ** Binary64 arithmetic *)

(** Rounding depends on the value of a rational, not on its fraction. *)
Lemma round64_Qeq (p q : Q) : (p == q)%Q -> round64 p = round64 q.
Proof. intros Hpq. unfold round64. by rewrite (Qred_complete p q Hpq). Qed.




(** The rounding on some values: a fraction that is no double, a tie
    between two doubles (to the even one), the largest double and the
    overflow beyond it, and the underflow to zero. *)
Lemma round64_examples :
  round64 (1 # 10) = Finite (3602879701896397 # 36028797018963968) /\
  round64 (5 # 3) = Finite (7505999378950827 # 4503599627370496) /\
  round64 (inject_Z (2 ^ 53 + 1)) = Finite (inject_Z (2 ^ 53)) /\
  round64 (inject_Z (2 ^ 53 + 3)) = Finite (inject_Z (2 ^ 53 + 4)) /\
  round64 (inject_Z (2 ^ 1024 - 2 ^ 970 - 1))
  = Finite (inject_Z (2 ^ 1024 - 2 ^ 971)) /\
  round64 (inject_Z (2 ^ 1024 - 2 ^ 970)) = PosInf /\
  round64 (- inject_Z (2 ^ 1024)) = NegInf /\
  round64 (1 # Z.to_pos (2 ^ 1074)) = Finite (1 # Z.to_pos (2 ^ 1074)) /\
  round64 (1 # Z.to_pos (2 ^ 1075)) = Finite 0.
Proof. split_and!; vm_compute; reflexivity. Qed.


(** ** The classifier *)

Lemma assign_regime_type_in_regimes (x : pyfloat) :
  Data.assign_regime_type x ∈ Data.regimes.
Proof.
  unfold Data.assign_regime_type, Data.regimes.
  repeat case_match; set_solver.
Qed.

Lemma regimes_NoDup : NoDup Data.regimes.
Proof. apply (bool_decide_unpack _). vm_compute. reflexivity. Qed.

(** The four branches of the classifier on a finite score. *)
Lemma assign_regime_type_cases (s : Q) :
  ((8.0 <= s)%Q /\ Data.assign_regime_type (Finite s) = "Full democracy") \/
  ((6.0 <= s < 8.0)%Q /\
   Data.assign_regime_type (Finite s) = "Flawed democracy") \/
  ((4.0 <= s < 6.0)%Q /\
   Data.assign_regime_type (Finite s) = "Hybrid regime") \/
  ((s < 4.0)%Q /\ Data.assign_regime_type (Finite s) = "Authoritarian").
Proof.
  unfold Data.assign_regime_type, fge, fle.
  destruct (Qle_bool 8.0 s) eqn:E8.
  { left. split; [by apply Qle_bool_iff|reflexivity]. }
  apply Qle_bool_false in E8. right.
  destruct (Qle_bool 6.0 s) eqn:E6.
  { left. split; [|reflexivity]. split; [by apply Qle_bool_iff|exact E8]. }
  apply Qle_bool_false in E6. right.
  destruct (Qle_bool 4.0 s) eqn:E4.
  { left. split; [|reflexivity]. split; [by apply Qle_bool_iff|exact E6]. }
  apply Qle_bool_false in E4. right. split; [exact E4|reflexivity].
Qed.

(** C1: for every finite score [s] the classifier returns exactly one of the
    four regime categories, by inclusive lower bounds tried highest first:
    Full democracy iff [8.0 <= s], Flawed democracy iff [6.0 <= s < 8.0],
    Hybrid regime iff [4.0 <= s < 6.0], Authoritarian iff [s < 4.0]; the
    four categories are distinct, the classifier is total (it returns one
    of them on every float, and has no error case), and it maps 3.999, 4.0,
    5.999, 6.0, 7.999 and 8.0 to Authoritarian, Hybrid regime, Hybrid
    regime, Flawed democracy, Flawed democracy and Full democracy. *)
Theorem assign_regime_type_thresholds (s : Q) :
  (Data.assign_regime_type (Finite s) = "Full democracy" <-> (8.0 <= s)%Q) /\
  (Data.assign_regime_type (Finite s) = "Flawed democracy"
   <-> (6.0 <= s < 8.0)%Q) /\
  (Data.assign_regime_type (Finite s) = "Hybrid regime"
   <-> (4.0 <= s < 6.0)%Q) /\
  (Data.assign_regime_type (Finite s) = "Authoritarian" <-> (s < 4.0)%Q) /\
  (forall x : pyfloat, Data.assign_regime_type x ∈ Data.regimes) /\
  NoDup Data.regimes /\
  Data.assign_regime_type (Finite 3.999) = "Authoritarian" /\
  Data.assign_regime_type (Finite 4.0) = "Hybrid regime" /\
  Data.assign_regime_type (Finite 5.999) = "Hybrid regime" /\
  Data.assign_regime_type (Finite 6.0) = "Flawed democracy" /\
  Data.assign_regime_type (Finite 7.999) = "Flawed democracy" /\
  Data.assign_regime_type (Finite 8.0) = "Full democracy".
Proof.
  split_and!; try reflexivity;
    [ | | | | apply assign_regime_type_in_regimes
      | apply regimes_NoDup ];
    destruct (assign_regime_type_cases s)
      as [[Hs ->]|[[Hs ->]|[[Hs ->]|[Hs ->]]]];
    (split; [intros Heq; first [discriminate Heq | exact Hs]
            | intros Hq; first [reflexivity | exfalso; lra]]).
Qed.

Ltac ranks i j := exists i, j; split_and!; [reflexivity | reflexivity | lia].

(** C10: the classifier is monotone: when [s1 <= s2], the category of [s1]
    is not above the category of [s2] in the order Authoritarian < Hybrid
    regime < Flawed democracy < Full democracy. *)
Theorem assign_regime_type_monotone (s1 s2 : pyfloat) :
  fle s1 s2 = true ->
  exists i j : nat,
    regime_rank (Data.assign_regime_type s1) = Some i /\
    regime_rank (Data.assign_regime_type s2) = Some j /\
    (i <= j)%nat.
Proof.
  intros Hle. unfold Data.assign_regime_type, fge.
  pose proof (fun t => fle_trans t s1 s2) as Htr.
  destruct (fle (Finite 8.0) s1) eqn:E8.
  { rewrite (Htr _ E8 Hle). ranks 3%nat 3%nat. }
  destruct (fle (Finite 6.0) s1) eqn:E6.
  { rewrite (Htr _ E6 Hle).
    destruct (fle (Finite 8.0) s2); [ranks 2%nat 3%nat | ranks 2%nat 2%nat]. }
  destruct (fle (Finite 4.0) s1) eqn:E4.
  { rewrite (Htr _ E4 Hle).
    destruct (fle (Finite 8.0) s2); [ranks 1%nat 3%nat|].
    destruct (fle (Finite 6.0) s2); [ranks 1%nat 2%nat | ranks 1%nat 1%nat]. }
  destruct (fle (Finite 8.0) s2); [ranks 0%nat 3%nat|].
  destruct (fle (Finite 6.0) s2); [ranks 0%nat 2%nat|].
  destruct (fle (Finite 4.0) s2); [ranks 0%nat 1%nat | ranks 0%nat 0%nat].
Qed.

Lemma assign_regime_type_monotone_witness :
  fle (Finite 5.9) (Finite 6.0) = true /\
  exists i j : nat,
    regime_rank (Data.assign_regime_type (Finite 5.9)) = Some i /\
    regime_rank (Data.assign_regime_type (Finite 6.0)) = Some j /\
    (i <= j)%nat.
Proof.
  split; [reflexivity|].
  apply (assign_regime_type_monotone (Finite 5.9) (Finite 6.0)). reflexivity.
Defined.

(** ** Yearly frames *)

Lemma get_yearly_data_regimes (df : DataFrame) (y : Z) :
  Forall (fun r => RegimeType r ∈ Data.regimes) (Data.get_yearly_data df y).
Proof.
  unfold Data.get_yearly_data. apply Forall_map, Forall_forall.
  intros r _. apply assign_regime_type_in_regimes.
Qed.


(** ** Frames loaded by [_setup_data] *)

Lemma filter_year_melt_column (rows : list RawRow) (k : nat) (y y' : Z) :
  filter (fun r => Year r = y) (map (Data.melt_row k y') rows)
  = if decide (y' = y) then map (Data.melt_row k y') rows else [].
Proof.
  induction rows as [|r rows IH]; [by case_decide|].
  cbn [map]. rewrite filter_cons, IH. cbn [Data.melt_row Year].
  by repeat case_decide.
Qed.

Lemma filter_year_melt_absent (rows : list RawRow) (ys : list Z) (a : nat)
    (y : Z) :
  y ∉ ys ->
  filter (fun r => Year r = y)
    (flat_map (fun '(k', y') => map (Data.melt_row k' y') rows)
       (zip (seq a (length ys)) ys))
  = [].
Proof.
  revert a. induction ys as [|y1 ys IH]; intros a Hy; [done|].
  apply not_elem_of_cons in Hy as [Hy1 Hy].
  cbn [length seq zip zip_with flat_map].
  rewrite filter_app, filter_year_melt_column, decide_False by done.
  by apply IH.
Qed.

Lemma filter_year_melt (rows : list RawRow) (ys : list Z) (a k : nat) (y : Z) :
  NoDup ys -> ys !! k = Some y ->
  filter (fun r => Year r = y)
    (flat_map (fun '(k', y') => map (Data.melt_row k' y') rows)
       (zip (seq a (length ys)) ys))
  = map (Data.melt_row (a + k) y) rows.
Proof.
  revert a k. induction ys as [|y0 ys IH]; intros a k Hnd Hk; [done|].
  apply NoDup_cons in Hnd as [Hy0 Hnd].
  cbn [length seq zip zip_with flat_map].
  rewrite filter_app, filter_year_melt_column.
  destruct k as [|k]; simplify_eq/=.
  - rewrite decide_True, Nat.add_0_r by done.
    by rewrite filter_year_melt_absent, app_nil_r.
  - rewrite decide_False
      by (intros ->; apply Hy0; by eapply list_elem_of_lookup_2).
    rewrite (IH (S a) k) by done. cbn. do 2 f_equal. lia.
Qed.

(** The yearly frame of a year column holds one row per record of the
    table, in the order of the records. *)
Lemma setup_data_yearly (csv : RawTable) (k : nat) (y : Z) :
  NoDup (year_columns csv) -> year_columns csv !! k = Some y ->
  Data.get_yearly_data (Data._setup_data csv) y
  = map (fun r => Data.remap_regime_type (Data.melt_row k y r))
      (raw_rows csv).
Proof.
  intros Hnd Hk. unfold Data.get_yearly_data, Data._setup_data, enumerate.
  rewrite (filter_year_melt _ _ 0 k y Hnd Hk). by rewrite map_map.
Qed.

(** The yearly frame of a year that is no column of the table is empty. *)
Lemma setup_data_yearly_absent (csv : RawTable) (y : Z) :
  y ∉ year_columns csv ->
  Data.get_yearly_data (Data._setup_data csv) y = [].
Proof.
  intros Hy. unfold Data.get_yearly_data, Data._setup_data, enumerate.
  by rewrite (filter_year_melt_absent _ _ 0 y Hy).
Qed.

Lemma setup_data_countries (csv : RawTable) (y : Z) :
  NoDup (year_columns csv) -> y ∈ year_columns csv ->
  map Country (Data.get_yearly_data (Data._setup_data csv) y)
  = map raw_country (raw_rows csv).
Proof.
  intros Hnd [k Hk]%list_elem_of_lookup_1.
  rewrite (setup_data_yearly csv k y Hnd Hk), map_map. done.
Qed.

(** ** numpy arrays *)

Lemma np_and_broadcast (a b : list bool) :
  np_and a b =
    if decide (broadcastable (length a) (length b))
    then Ok (broadcast_and a b)
    else Raise (ValueError "operands could not be broadcast together").
Proof.
  unfold np_and, broadcast_and, broadcastable.
  destruct (decide (length a = length b)) as [Heq|Hne].
  { rewrite decide_True; [done|by left]. }
  destruct a as [|x [|x' a]], b as [|y [|y' b]]; simpl in *; try done;
    first [ rewrite decide_True by lia; done
          | rewrite decide_False by lia; done ].
Qed.

Lemma length_np_eq (a : list string) (s : string) :
  length (np_eq a s) = length a.
Proof. unfold np_eq. apply length_map. Qed.

Ltac sum_counts :=
  cbn -[float_of_nat fadd]; change (Finite 0) with (float_of_nat 0);
  rewrite ?fadd_float_of_nat.

Lemma matrix_of_counts_item (c : nat -> nat -> nat) (i j : nat) :
  (i < 4)%nat -> (j < 4)%nat ->
  get_item (matrix_of_counts c) i j = Some (float_of_nat (c i j)).
Proof.
  intros Hi Hj.
  destruct i as [|[|[|[|]]]]; [| | | |lia];
    destruct j as [|[|[|[|]]]]; try lia; reflexivity.
Qed.

Lemma matrix_of_counts_block_sum (c : nat -> nat -> nat) :
  np_sum (concat (block 4 (matrix_of_counts c)))
  = float_of_nat (block_total c).
Proof. unfold np_sum. sum_counts. f_equal. unfold block_total. cbn. lia. Qed.

Lemma matrix_of_counts_row_total (c : nat -> nat -> nat) (i : nat) :
  (i < 4)%nat ->
  exists row, block 4 (matrix_of_counts c) !! i = Some row /\
              get_item (matrix_of_counts c) i 4 = Some (np_sum row).
Proof.
  intros Hi. destruct i as [|[|[|[|]]]]; [| | | |lia];
    (eexists; split; [reflexivity|]); unfold np_sum; sum_counts; reflexivity.
Qed.

Lemma matrix_of_counts_column_total (c : nat -> nat -> nat) (j : nat) :
  (j < 4)%nat ->
  get_item (matrix_of_counts c) 4 j
  = Some (np_sum (column j (block 4 (matrix_of_counts c)))).
Proof.
  intros Hj. destruct j as [|[|[|[|]]]]; [| | | |lia];
    unfold np_sum; sum_counts; reflexivity.
Qed.

(** ** The migration matrix in closed form *)

Section migration_matrix.
Variables (df : DataFrame) (start_year end_year : Z).

Let col1 := map RegimeType (Data.get_yearly_data df start_year).
Let col2 := map RegimeType (Data.get_yearly_data df end_year).

(** When the two yearly frames broadcast, every block cell receives its
    pair count and the builder returns. *)
Lemma get_migration_matrix_broadcast :
  broadcastable (length (Data.get_yearly_data df start_year))
                (length (Data.get_yearly_data df end_year)) ->
  Data.get_migration_matrix df start_year end_year =
    Ok (matrix_of_counts (fun i j =>
          pair_count col1 col2 (regime i) (regime j))).
Proof.
  intros Hb. unfold Data.get_migration_matrix. fold col1 col2.
  assert (Hand : forall r1 r2, np_and (np_eq col1 r1) (np_eq col2 r2)
                 = Ok (broadcast_and (np_eq col1 r1) (np_eq col2 r2))).
  { intros r1 r2. rewrite np_and_broadcast, !length_np_eq.
    unfold col1, col2. rewrite !length_map. by rewrite decide_True. }
  cbn [Data.regimes length enumerate seq zip zip_with for_each mbind
       pyresult_bind].
  rewrite !Hand.
  cbn -[float_of_nat np_count broadcast_and np_eq fadd].
  change (Finite 0) with (float_of_nat 0).
  rewrite !fadd_float_of_nat.
  reflexivity.
Qed.

(** Otherwise the first [&] raises, and so does the builder. *)
Lemma get_migration_matrix_not_broadcast :
  ~ broadcastable (length (Data.get_yearly_data df start_year))
                  (length (Data.get_yearly_data df end_year)) ->
  Data.get_migration_matrix df start_year end_year =
    Raise (ValueError "operands could not be broadcast together").
Proof.
  intros Hb. unfold Data.get_migration_matrix. fold col1 col2.
  assert (Hand : forall r1 r2, np_and (np_eq col1 r1) (np_eq col2 r2)
            = Raise (ValueError "operands could not be broadcast together")).
  { intros r1 r2. rewrite np_and_broadcast, !length_np_eq.
    unfold col1, col2. rewrite !length_map. by rewrite decide_False. }
  cbn [Data.regimes length enumerate seq zip zip_with for_each mbind
       pyresult_bind].
  rewrite !Hand. reflexivity.
Qed.

End migration_matrix.

(** ** Counting rows *)

Lemma pair_count_positional (df1 df2 : DataFrame) (r1 r2 : string) :
  length df1 = length df2 ->
  pair_count (map RegimeType df1) (map RegimeType df2) r1 r2
  = positional_count df1 df2 r1 r2.
Proof.
  unfold pair_count, positional_count, broadcast_and, np_count.
  intros Hlen. rewrite !length_np_eq, !length_map, decide_True by done.
  revert df2 Hlen. induction df1 as [|x df1 IH]; intros [|y df2] Hlen;
    simplify_eq/=; [done|].
  rewrite !filter_cons. cbn [fst snd].
  destruct (String.eqb_spec (RegimeType x) r1) as [H1|H1],
           (String.eqb_spec (RegimeType y) r2) as [H2|H2]; cbn [andb];
    [ rewrite !decide_True by done
    | rewrite decide_False by done; rewrite decide_False by (by intros [_ ?])
    | rewrite decide_False by done; rewrite decide_False by (by intros [? _])
    | rewrite decide_False by done;
      rewrite decide_False by (by intros [? _]) ];
    cbn [length]; by rewrite IH.
Qed.

Lemma get_migration_matrix_equal_length (df : DataFrame) (s e : Z) :
  length (Data.get_yearly_data df s) = length (Data.get_yearly_data df e) ->
  Data.get_migration_matrix df s e =
    Ok (matrix_of_counts (fun i j =>
          positional_count (Data.get_yearly_data df s)
            (Data.get_yearly_data df e) (regime i) (regime j))).
Proof.
  intros Hlen. rewrite get_migration_matrix_broadcast by by left.
  unfold matrix_of_counts. by rewrite !pair_count_positional.
Qed.

Lemma positional_count_cons (x y : Row) (df1 df2 : DataFrame)
    (r1 r2 : string) :
  positional_count (x :: df1) (y :: df2) r1 r2
  = ((if decide (RegimeType x = r1 /\ RegimeType y = r2) then 1 else 0)
     + positional_count df1 df2 r1 r2)%nat.
Proof.
  unfold positional_count. cbn [zip zip_with]. rewrite filter_cons.
  cbn [fst snd]. by case_decide.
Qed.


(** A pair of categories lies in exactly one block cell. *)
Lemma regime_pair_unique (a b : string) :
  a ∈ Data.regimes -> b ∈ Data.regimes ->
  block_total (fun i j =>
                 if decide (a = regime i /\ b = regime j) then 1 else 0)%nat
  = 1%nat.
Proof.
  unfold Data.regimes. rewrite !elem_of_cons, !elem_of_nil.
  intros [->|[->|[->|[->|[]]]]] [->|[->|[->|[->|[]]]]];
    vm_compute; reflexivity.
Qed.

Lemma block_total_add (c d : nat -> nat -> nat) :
  block_total (fun i j => c i j + d i j)%nat
  = (block_total c + block_total d)%nat.
Proof. unfold block_total. cbn. lia. Qed.

Lemma block_total_ext (c d : nat -> nat -> nat) :
  (forall i j, c i j = d i j) -> block_total c = block_total d.
Proof. intros Hcd. unfold block_total. cbn. by rewrite !Hcd. Qed.

(** Rows paired by position fill the block with as many counts as there
    are rows. *)
Lemma block_total_positional (df1 df2 : DataFrame) :
  length df1 = length df2 ->
  Forall (fun r => RegimeType r ∈ Data.regimes) df1 ->
  Forall (fun r => RegimeType r ∈ Data.regimes) df2 ->
  block_total (fun i j => positional_count df1 df2 (regime i) (regime j))
  = length df1.
Proof.
  intros Hlen H1. revert df2 Hlen.
  induction H1 as [|x df1 Hx H1 IH]; intros [|y df2] Hlen H2; simplify_eq/=;
    [done|].
  apply Forall_cons in H2 as [Hy H2].
  rewrite (block_total_ext _ _ (fun i j =>
             positional_count_cons x y df1 df2 (regime i) (regime j))).
  rewrite block_total_add, regime_pair_unique, IH by done. done.
Qed.


(** ** Counting countries *)

Lemma filter_ext_elem {A} (P Q : A -> Prop) `{!forall x, Decision (P x)}
    `{!forall x, Decision (Q x)} (l : list A) :
  (forall x, x ∈ l -> (P x <-> Q x)) -> filter P l = filter Q l.
Proof.
  induction l as [|x l IH]; intros HPQ; [done|].
  rewrite !filter_cons, IH by (intros y Hy; apply HPQ; by right).
  destruct (HPQ x (list_elem_of_here _ _)) as [HP HQ].
  destruct (decide (P x)) as [Hx|Hx].
  - by rewrite decide_True by auto.
  - by rewrite decide_False by auto.
Qed.

Lemma remove_dups_NoDup {A} `{EqDecision A} (l : list A) :
  NoDup l -> remove_dups l = l.
Proof.
  induction 1 as [|x l Hx Hl IH]; [done|].
  cbn. destruct (decide_rel elem_of x l); [done|]. by rewrite IH.
Qed.

Lemma remove_dups_app_subseteq {A} `{EqDecision A} (l1 l2 : list A) :
  l1 ⊆ l2 -> remove_dups (l1 ++ l2) = remove_dups l2.
Proof.
  induction l1 as [|x l1 IH]; intros Hsub; [done|].
  cbn. destruct (decide_rel elem_of x (l1 ++ l2)) as [_|Hx].
  - apply IH. intros y Hy. apply Hsub. by right.
  - destruct Hx. apply elem_of_app. right. apply Hsub. by left.
Qed.

Lemma category_of_cons (x : Row) (df : DataFrame) (c : string) :
  category_of (x :: df) c
  = if decide (Country x = c) then Some (RegimeType x) else category_of df c.
Proof. unfold category_of. rewrite filter_cons. by case_decide. Qed.

(** When two frames list the same countries in the same order, each once,
    looking the categories up by country and pairing the rows by position
    count the same. *)
Lemma aligned_count (df1 df2 : DataFrame) (r1 r2 : string) :
  map Country df1 = map Country df2 ->
  NoDup (map Country df1) ->
  length (filter (fun c => category_of df1 c = Some r1 /\
                           category_of df2 c = Some r2) (map Country df1))
  = positional_count df1 df2 r1 r2.
Proof.
  revert df2. induction df1 as [|x df1 IH]; intros [|y df2] Hmap Hnd;
    [done|done|done|].
  injection Hmap as Hxy Hmap. cbn [map] in Hnd |- *.
  apply NoDup_cons in Hnd as [Hx Hnd].
  rewrite positional_count_cons, <- (IH df2 Hmap Hnd).
  rewrite filter_cons, !category_of_cons.
  rewrite (decide_True (P := Country x = Country x)) by done.
  rewrite (decide_True (P := Country y = Country x)) by done.
  assert (Htail :
    filter (fun c => category_of (x :: df1) c = Some r1 /\
                     category_of (y :: df2) c = Some r2) (map Country df1)
    = filter (fun c => category_of df1 c = Some r1 /\
                       category_of df2 c = Some r2) (map Country df1)).
  { apply filter_ext_elem. intros c Hc. rewrite !category_of_cons.
    rewrite !decide_False; [done|congruence|congruence]. }
  rewrite Htail.
  destruct (decide (RegimeType x = r1 /\ RegimeType y = r2)) as [[-> ->]|Hn].
  - by rewrite decide_True.
  - rewrite decide_False; [done|]. intros [[= ?] [= ?]]. by apply Hn.
Qed.

Lemma countries_moving_positional (df1 df2 : DataFrame) (r1 r2 : string) :
  map Country df1 = map Country df2 ->
  NoDup (map Country df1) ->
  countries_moving df1 df2 r1 r2 = positional_count df1 df2 r1 r2.
Proof.
  intros Hmap Hnd. unfold countries_moving, countries_of.
  rewrite <- Hmap, remove_dups_app_subseteq, remove_dups_NoDup by done.
  by apply aligned_count.
Qed.

(** ** The migration matrix *)

(** C2: when the start-year and the end-year frame list the same countries
    in the same order, each once, the builder returns a matrix whose cell
    [(i, j)], for [i, j < 4], is the number of countries whose category is
    [i] at the start year and [j] at the end year. *)
Theorem migration_matrix_counts_countries
    (df : DataFrame) (start_year end_year : Z) (i j : nat) :
  (i < 4)%nat -> (j < 4)%nat ->
  map Country (Data.get_yearly_data df start_year)
  = map Country (Data.get_yearly_data df end_year) ->
  NoDup (map Country (Data.get_yearly_data df start_year)) ->
  exists m,
    Data.get_migration_matrix df start_year end_year = Ok m /\
    get_item m i j
    = Some (float_of_nat
              (countries_moving (Data.get_yearly_data df start_year)
                 (Data.get_yearly_data df end_year) (regime i) (regime j))).
Proof.
  intros Hi Hj Hmap Hnd. eexists. split.
  - apply get_migration_matrix_equal_length.
    by rewrite <- (length_map Country), Hmap, length_map.
  - rewrite matrix_of_counts_item by done.
    by rewrite countries_moving_positional.
Qed.

Lemma migration_matrix_counts_countries_witness :
  (1 < 4)%nat /\ (3 < 4)%nat /\
  map Country (Data.get_yearly_data (Data._setup_data sample_csv) 2006)
  = map Country (Data.get_yearly_data (Data._setup_data sample_csv) 2008) /\
  NoDup (map Country
           (Data.get_yearly_data (Data._setup_data sample_csv) 2006)) /\
  exists m,
    Data.get_migration_matrix (Data._setup_data sample_csv) 2006 2008
    = Ok m /\
    get_item m 1 3
    = Some (float_of_nat
              (countries_moving
                 (Data.get_yearly_data (Data._setup_data sample_csv) 2006)
                 (Data.get_yearly_data (Data._setup_data sample_csv) 2008)
                 (regime 1) (regime 3))).
Proof.
  assert (Hnd : NoDup (map Country (Data.get_yearly_data
                                      (Data._setup_data sample_csv) 2006))).
  { apply (bool_decide_unpack _). vm_compute. reflexivity. }
  split_and!; [lia|lia|reflexivity|exact Hnd|].
  apply (migration_matrix_counts_countries
           (Data._setup_data sample_csv) 2006 2008 1 3);
    [lia|lia|reflexivity|exact Hnd].
Defined.

(** The frames [_setup_data] loads meet the premises of the theorem above:
    for two year columns of a table with distinct years and distinct
    countries, the cell is the number of countries that moved. *)
Lemma setup_data_migration_matrix
    (csv : RawTable) (start_year end_year : Z) (i j : nat) :
  NoDup (year_columns csv) ->
  NoDup (map raw_country (raw_rows csv)) ->
  start_year ∈ year_columns csv -> end_year ∈ year_columns csv ->
  (i < 4)%nat -> (j < 4)%nat ->
  exists m,
    Data.get_migration_matrix (Data._setup_data csv) start_year end_year
    = Ok m /\
    get_item m i j
    = Some (float_of_nat
              (countries_moving
                 (Data.get_yearly_data (Data._setup_data csv) start_year)
                 (Data.get_yearly_data (Data._setup_data csv) end_year)
                 (regime i) (regime j))).
Proof.
  intros Hys Hcs Hs He Hi Hj.
  pose proof (setup_data_countries csv start_year Hys Hs) as H1.
  pose proof (setup_data_countries csv end_year Hys He) as H2.
  eexists. split.
  - apply get_migration_matrix_equal_length.
    by rewrite <- (length_map Country), H1, <- H2, length_map.
  - rewrite matrix_of_counts_item by done.
    rewrite countries_moving_positional; [done|congruence|by rewrite H1].
Qed.

(** C3: for a matrix built from two yearly frames of [n] rows each, the
    sixteen block cells (rows and columns 0 to 3) add up to [n], every entry
    of the totals column (column 4, rows 0 to 3) is the sum of its block
    row, every entry of the totals row (row 4, columns 0 to 3) is the sum of
    its block column, and cell (4, 4) is NaN. *)
Theorem migration_matrix_totals (df : DataFrame) (start_year end_year : Z) :
  length (Data.get_yearly_data df start_year)
  = length (Data.get_yearly_data df end_year) ->
  exists m,
    Data.get_migration_matrix df start_year end_year = Ok m /\
    np_sum (concat (block 4 m))
    = float_of_nat (length (Data.get_yearly_data df start_year)) /\
    (forall i, (i < 4)%nat ->
       exists row, block 4 m !! i = Some row /\
                   get_item m i 4 = Some (np_sum row)) /\
    (forall j, (j < 4)%nat ->
       get_item m 4 j = Some (np_sum (column j (block 4 m)))) /\
    get_item m 4 4 = Some NaN.
Proof.
  intros Hlen. eexists. split; [by apply get_migration_matrix_equal_length|].
  split_and!.
  - rewrite matrix_of_counts_block_sum. f_equal.
    apply block_total_positional; [done|apply get_yearly_data_regimes..].
  - apply matrix_of_counts_row_total.
  - apply matrix_of_counts_column_total.
  - reflexivity.
Qed.

Lemma migration_matrix_totals_witness :
  length (Data.get_yearly_data (Data._setup_data sample_csv) 2006)
  = length (Data.get_yearly_data (Data._setup_data sample_csv) 2008) /\
  exists m,
    Data.get_migration_matrix (Data._setup_data sample_csv) 2006 2008
    = Ok m /\
    np_sum (concat (block 4 m))
    = float_of_nat
        (length (Data.get_yearly_data (Data._setup_data sample_csv) 2006)) /\
    (forall i, (i < 4)%nat ->
       exists row, block 4 m !! i = Some row /\
                   get_item m i 4 = Some (np_sum row)) /\
    (forall j, (j < 4)%nat ->
       get_item m 4 j = Some (np_sum (column j (block 4 m)))) /\
    get_item m 4 4 = Some NaN.
Proof.
  split; [reflexivity|].
  apply (migration_matrix_totals (Data._setup_data sample_csv) 2006 2008).
  reflexivity.
Defined.

(** The matrix of the sample table: Norway stays a full democracy, Albania
    moves from hybrid regime to full democracy, Laos stays authoritarian. *)
Example sample_migration_matrix :
  Data.get_migration_matrix (Data._setup_data sample_csv) 2006 2008
  = Ok [[Finite 1; Finite 0; Finite 0; Finite 0; Finite 1];
        [Finite 0; Finite 0; Finite 0; Finite 1; Finite 1];
        [Finite 0; Finite 0; Finite 0; Finite 0; Finite 0];
        [Finite 0; Finite 0; Finite 0; Finite 1; Finite 1];
        [Finite 1; Finite 0; Finite 0; Finite 2; NaN]].
Proof. vm_compute. reflexivity. Qed.




(** C5, as stated, fails: the builder raises ValueError for the year 2006
    of the sample table (three rows) against the year 2007, which the table
    does not have (no row), and for [uneven_df], whose yearly frames have
    two and three rows.  And the matrix of two empty frames is not zero in
    every cell: cell (4, 4) is NaN. *)
Lemma migration_matrix_can_raise :
  Data.get_migration_matrix (Data._setup_data sample_csv) 2006 2007
  = Raise (ValueError "operands could not be broadcast together") /\
  Data.get_migration_matrix uneven_df 2006 2008
  = Raise (ValueError "operands could not be broadcast together") /\
  exists m,
    Data.get_migration_matrix [] 2006 2008 = Ok m /\
    get_item m 4 4 = Some NaN.
Proof.
  split_and!; [vm_compute; reflexivity..|].
  eexists. split; [vm_compute; reflexivity|reflexivity].
Qed.

(** C5, amended: the builder returns exactly when the two yearly frames
    have the same number of rows or one of them has a single row, and
    raises ValueError otherwise; every matrix it returns is 5x5; built from
    two empty frames, the matrix is zero in every cell but (4, 4), which is
    NaN. *)
Theorem migration_matrix_failure_modes
    (df : DataFrame) (start_year end_year : Z) :
  ((exists m, Data.get_migration_matrix df start_year end_year = Ok m) <->
   broadcastable (length (Data.get_yearly_data df start_year))
                 (length (Data.get_yearly_data df end_year))) /\
  (~ broadcastable (length (Data.get_yearly_data df start_year))
                   (length (Data.get_yearly_data df end_year)) ->
   Data.get_migration_matrix df start_year end_year
   = Raise (ValueError "operands could not be broadcast together")) /\
  (forall m, Data.get_migration_matrix df start_year end_year = Ok m ->
             length m = 5%nat /\ Forall (fun row => length row = 5%nat) m) /\
  (Data.get_yearly_data df start_year = [] ->
   Data.get_yearly_data df end_year = [] ->
   Data.get_migration_matrix df start_year end_year = Ok zero_matrix).
Proof.
  destruct (decide (broadcastable
                      (length (Data.get_yearly_data df start_year))
                      (length (Data.get_yearly_data df end_year))))
    as [Hb|Hb].
  - rewrite (get_migration_matrix_broadcast df start_year end_year Hb).
    split_and!.
    + split; [done|]. intros _. by eexists.
    + done.
    + intros m [= <-]. split; [done|]. by repeat constructor.
    + intros -> ->. reflexivity.
  - rewrite (get_migration_matrix_not_broadcast df start_year end_year Hb).
    split_and!.
    + split; [by intros [m ?]|done].
    + done.
    + done.
    + intros H1 H2. rewrite H1, H2 in Hb. destruct Hb. by left.
Qed.

(** C6: the matrix is a function of the two category lists alone: two
    builds, from frames and years whose start-year and end-year category
    lists agree, end alike, with equal matrices in every cell or with the
    same exception. *)
Theorem migration_matrix_rebuild
    (df df' : DataFrame) (start_year end_year start_year' end_year' : Z) :
  map RegimeType (Data.get_yearly_data df start_year)
  = map RegimeType (Data.get_yearly_data df' start_year') ->
  map RegimeType (Data.get_yearly_data df end_year)
  = map RegimeType (Data.get_yearly_data df' end_year') ->
  Data.get_migration_matrix df start_year end_year
  = Data.get_migration_matrix df' start_year' end_year'.
Proof.
  intros H1 H2. unfold Data.get_migration_matrix. by rewrite H1, H2.
Qed.

Lemma migration_matrix_rebuild_witness :
  Data.get_migration_matrix (Data._setup_data sample_csv) 2006 2008
  = Data.get_migration_matrix
      (map (relabel (fun _ => "unknown")) (Data._setup_data sample_csv))
      2006 2008.
Proof.
  apply (migration_matrix_rebuild (Data._setup_data sample_csv)
           (map (relabel (fun _ => "unknown")) (Data._setup_data sample_csv))
           2006 2008 2006 2008); reflexivity.
Defined.

(** ** Group-wise means *)

Section groupby_lemmas.
Context `{Countable K} (key : Row -> K).

(** After one pass, a group that has rows holds the compensated sum and the
    number of its observed scores, added in row order. *)
Lemma group_mean_fold_lookup (df : DataFrame) (k : K) :
  fold_left (group_mean_step key) df ∅ !! k
  = if decide (filter (fun r => key r = k) df = []) then None
    else Some (fold_left kahan_step (observed key k df) (Finite 0, Finite 0),
               length (observed key k df)).
Proof.
  induction df as [|r df IH] using rev_ind.
  { cbn. by rewrite lookup_empty. }
  rewrite fold_left_app. cbn [fold_left].
  unfold observed in *. rewrite filter_app, filter_cons, filter_nil.
  unfold group_mean_step at 1.
  destruct (decide (key r = k)) as [<-|Hne].
  - rewrite IH.
    rewrite (decide_False (P := _ ++ [r] = []))
      by (by intros ?%app_nil_r_inv).
    rewrite map_app, filter_app. cbn [map]. rewrite filter_cons, filter_nil.
    destruct (decide (filter (fun r0 => key r0 = key r) df = []))
      as [Hnil|Hnn];
      cbn [default from_option id]; cbv beta iota;
      destruct (isnan (DemocracyIndex r)) eqn:Hnan; rewrite lookup_insert_eq.
    + by rewrite Hnil.
    + by rewrite Hnil.
    + by rewrite decide_False, app_nil_r.
    + rewrite decide_True by done. rewrite fold_left_app, length_app. cbn.
      do 2 f_equal. lia.
  - rewrite app_nil_r.
    destruct (default _ _) as [s nobs].
    destruct (isnan _); by rewrite lookup_insert_ne.
Qed.

Lemma groupby_mean_lookup (df : DataFrame) (k : K) :
  groupby_mean key df !! k
  = if decide (filter (fun r => key r = k) df = []) then None
    else Some (match length (observed key k df) with
               | O => NaN
               | S _ => fdiv_count (kahan_sum (observed key k df))
                          (length (observed key k df))
               end).
Proof.
  unfold groupby_mean. rewrite lookup_fmap, group_mean_fold_lookup.
  by case_decide.
Qed.


End groupby_lemmas.

Lemma elem_of_get_world_average (df : DataFrame) (y : Z) (v : pyfloat) :
  (y, v) ∈ Data.get_world_average df <-> groupby_mean Year df !! y = Some v.
Proof.
  unfold Data.get_world_average.
  rewrite merge_sort_Permutation. apply elem_of_map_to_list.
Qed.

(** The rows of the world average come in increasing order of the year. *)
Lemma get_world_average_sorted (df : DataFrame) :
  Sorted year_le (Data.get_world_average df).
Proof.
  apply Sorted_merge_sort. intros a b. unfold year_le. lia.
Qed.





(** ** Fetching the raw data *)

Lemma get_raw_data_cases (html : list HtmlTable) :
  match html !! 5%nat with
  | Some t =>
      exists csv,
        Data.get_raw_data html
        = ([PageFetched "The_Economist_Democracy_Index";
            CsvWritten "data/raw/democracy_index.csv" csv], Ok tt)
  | None =>
      Data.get_raw_data html
      = ([PageFetched "The_Economist_Democracy_Index"],
         Raise (ValueError
                  match html with
                  | [] => "No tables found"
                  | _ => "The expected table was not found on the Wikipedia."
                  end))
  end.
Proof.
  destruct html as [|t0 [|t1 [|t2 [|t3 [|t4 [|t5 html]]]]]]; cbn;
    try reflexivity.
  by eexists.
Qed.

(** C8: the fetch ends with a ValueError exactly when the page has no table
    at index 5, the place of the expected table.  It then has fetched the
    page once and written nothing, and the error carries a message: "The
    expected table was not found on the Wikipedia." when the page has some
    tables, "No tables found" when it has none.  When the table is there the
    fetch writes the CSV file and returns.  In every case the page is
    fetched exactly once: nothing is retried. *)
Theorem get_raw_data_missing_table (html : list HtmlTable) :
  ((exists msg, (Data.get_raw_data html).2 = Raise (ValueError msg)) <->
   html !! 5%nat = None) /\
  (html !! 5%nat = None ->
   (Data.get_raw_data html).1
   = [PageFetched "The_Economist_Democracy_Index"] /\
   (html <> [] ->
    (Data.get_raw_data html).2
    = Raise
        (ValueError "The expected table was not found on the Wikipedia.")) /\
   (html = [] ->
    (Data.get_raw_data html).2 = Raise (ValueError "No tables found"))) /\
  (forall t, html !! 5%nat = Some t ->
     (Data.get_raw_data html).2 = Ok tt /\
     exists csv,
       (Data.get_raw_data html).1
       = [PageFetched "The_Economist_Democracy_Index";
          CsvWritten "data/raw/democracy_index.csv" csv]) /\
  length (filter (fun ev => is_fetch ev = true) (Data.get_raw_data html).1)
  = 1%nat.
Proof.
  pose proof (get_raw_data_cases html) as Hcases.
  destruct (html !! 5%nat) as [t|] eqn:Ht.
  - destruct Hcases as [csv ->]. cbn [fst snd]. split_and!.
    + split; [by intros [msg ?]|done].
    + done.
    + intros ? _. split; [done|by exists csv].
    + reflexivity.
  - rewrite Hcases. cbn [fst snd]. split_and!.
    + split; [done|]. intros _. by eexists.
    + intros _. split_and!; [done| |]; by destruct html.
    + done.
    + reflexivity.
Qed.

(** * Further properties *)

(** ** Frames loaded by [_setup_data] and their selections *)

(** X1: the yearly frame of a loaded table has one row per record of the
    table, in the order of the records: the record's region and country, the
    score of the year's column, and the category of that score (not the
    regime type the table stores). *)
Theorem setup_data_yearly_frame (csv : RawTable) (k : nat) (y : Z) :
  NoDup (year_columns csv) -> year_columns csv !! k = Some y ->
  Data.get_yearly_data (Data._setup_data csv) y
  = map (yearly_row k y) (raw_rows csv).
Proof.
  intros Hnd Hk. rewrite (setup_data_yearly csv k y Hnd Hk).
  apply map_ext. intros r. reflexivity.
Qed.

Lemma setup_data_yearly_frame_witness :
  NoDup (year_columns sample_csv) /\
  year_columns sample_csv !! 1%nat = Some 2008 /\
  Data.get_yearly_data (Data._setup_data sample_csv) 2008
  = map (yearly_row 1 2008) (raw_rows sample_csv).
Proof.
  assert (Hnd : NoDup (year_columns sample_csv)).
  { apply (bool_decide_unpack _). vm_compute. reflexivity. }
  split_and!; [exact Hnd|reflexivity|].
  apply (setup_data_yearly_frame sample_csv 1 2008 Hnd). reflexivity.
Defined.

Lemma length_flat_map_const {A B} (f : A -> list B) (l : list A) (n : nat) :
  (forall x, length (f x) = n) -> length (flat_map f l) = (length l * n)%nat.
Proof.
  intros Hf. induction l as [|x l IH]; [done|].
  cbn. rewrite length_app, Hf, IH. lia.
Qed.

(** X2: melting gives one row per record and year column; every row
    carries the year of a column of the table; and for a year that is no
    column of the table both yearly selections are empty. *)
Theorem setup_data_size (csv : RawTable) :
  length (Data._setup_data csv)
  = (length (year_columns csv) * length (raw_rows csv))%nat /\
  (forall r, r ∈ Data._setup_data csv -> Year r ∈ year_columns csv) /\
  (forall y, y ∉ year_columns csv ->
     Data.filter_by_year (Data._setup_data csv) y = [] /\
     Data.get_yearly_data (Data._setup_data csv) y = []).
Proof.
  split_and!.
  - unfold Data._setup_data, enumerate.
    rewrite (length_flat_map_const _ _ (length (raw_rows csv))).
    + by rewrite length_zip_with, length_seq, Nat.min_id.
    + intros [k y]. apply length_map.
  - intros r Hr. unfold Data._setup_data in Hr.
    apply list_elem_of_In, in_flat_map in Hr as ([k y] & Hky & Hr).
    apply list_elem_of_In, list_elem_of_fmap in Hr as (r0 & -> & _).
    apply list_elem_of_In in Hky. unfold enumerate in Hky.
    by apply elem_of_zip_r in Hky.
  - intros y Hy.
    pose proof (setup_data_yearly_absent csv y Hy) as Habs.
    split; [|done]. unfold Data.get_yearly_data in Habs.
    apply fmap_nil_inv in Habs. done.
Qed.

(** X3: [get_yearly_data] and [filter_by_year] select the same rows and
    agree on every column but the regime type; they return the same frame
    exactly when every row of that year already stores the category of its
    score. *)
Theorem get_yearly_data_vs_filter_by_year (df : DataFrame) (year : Z) :
  map unlabelled (Data.get_yearly_data df year)
  = map unlabelled (Data.filter_by_year df year) /\
  (Data.get_yearly_data df year = Data.filter_by_year df year <->
   forall r, r ∈ df -> Year r = year ->
             RegimeType r = Data.assign_regime_type (DemocracyIndex r)).
Proof.
  unfold Data.get_yearly_data, Data.filter_by_year. split.
  - rewrite map_map. apply map_ext. intros r. reflexivity.
  - induction df as [|r df IH].
    { split; [|done]. intros _ r Hr. by apply elem_of_nil in Hr. }
    rewrite filter_cons. destruct (decide (Year r = year)) as [Hy|Hy].
    + cbn [map]. split.
      * intros [= Hr Hrest]. intros r' [->|Hr']%elem_of_cons Hy'.
        -- rewrite <- Hr at 1. reflexivity.
        -- by apply IH.
      * intros Hall. f_equal.
        -- destruct r as [rg c rt yr di]. unfold Data.remap_regime_type.
           cbn. f_equal. symmetry. apply (Hall _ (list_elem_of_here _ _) Hy).
        -- apply IH. intros r' Hr'. apply Hall. by right.
    + rewrite IH. split.
      * intros Hall r' [->|Hr']%elem_of_cons Hy'; [done|by apply Hall].
      * intros Hall r' Hr'. apply Hall. by right.
Qed.

Lemma filter_flat_map {A B} (P : B -> Prop) `{!forall x, Decision (P x)}
    (f : A -> list B) (l : list A) :
  filter P (flat_map f l) = flat_map (fun x => filter P (f x)) l.
Proof.
  induction l as [|x l IH]; [done|]. cbn. by rewrite filter_app, IH.
Qed.

Lemma filter_melt_rows (key : Row -> string) (rkey : RawRow -> string)
    (values : list string) (k : nat) (y : Z) (rows : list RawRow) :
  (forall k y r, key (Data.melt_row k y r) = rkey r) ->
  filter (fun r => key r ∈ values) (map (Data.melt_row k y) rows)
  = map (Data.melt_row k y) (filter (fun r => rkey r ∈ values) rows).
Proof.
  intros Hkey. induction rows as [|r rows IH]; [done|].
  cbn [map]. rewrite !filter_cons, Hkey, IH. by case_decide.
Qed.

Lemma filter_setup_data (key : Row -> string) (rkey : RawRow -> string)
    (values : list string) (csv : RawTable) :
  (forall k y r, key (Data.melt_row k y r) = rkey r) ->
  Data._filter (Data._setup_data csv) key values
  = Data._setup_data (keep_records (fun r => rkey r ∈ values) csv).
Proof.
  intros Hkey. unfold Data._filter, Data._setup_data, keep_records.
  cbn [year_columns raw_rows]. rewrite filter_flat_map.
  apply flat_map_ext. intros [k y]. by apply filter_melt_rows.
Qed.

(** X4: filtering the loaded frame by region, country or regime type is
    the same as loading the table that keeps only the records with one of
    the given values. *)
Theorem filters_commute_with_setup_data (csv : RawTable)
    (values : list string) :
  Data.filter_by_region (Data._setup_data csv) values
  = Data._setup_data (keep_records (fun r => raw_region r ∈ values) csv) /\
  Data.filter_by_country (Data._setup_data csv) values
  = Data._setup_data (keep_records (fun r => raw_country r ∈ values) csv) /\
  Data.filter_by_regime (Data._setup_data csv) values
  = Data._setup_data (keep_records (fun r => raw_regime r ∈ values) csv).
Proof.
  split_and!; by apply filter_setup_data.
Qed.

(** X5: for a country with exactly one record in the table, filtering by
    that country yields its time series: one row per year column, in column
    order, with the record's score of that column, all rows of that
    country. *)
Theorem filter_by_country_time_series (csv : RawTable) (c : string)
    (r : RawRow) :
  filter (fun r' => raw_country r' = c) (raw_rows csv) = [r] ->
  map Year (Data.filter_by_country (Data._setup_data csv) [c])
  = year_columns csv /\
  map DemocracyIndex (Data.filter_by_country (Data._setup_data csv) [c])
  = map (fun k => nth k (raw_scores r) NaN)
      (seq 0 (length (year_columns csv))) /\
  Forall (fun r' => Country r' = c)
    (Data.filter_by_country (Data._setup_data csv) [c]).
Proof.
  intros Hr. unfold Data.filter_by_country.
  rewrite (filter_setup_data Country raw_country) by done.
  unfold Data._setup_data, keep_records, enumerate. cbn [year_columns raw_rows].
  assert (Hf : filter (fun r' => raw_country r' ∈ [c]) (raw_rows csv) = [r]).
  { rewrite <- Hr. apply list_filter_iff. intros r'.
    by rewrite list_elem_of_singleton. }
  rewrite Hf.
  assert (Hc : raw_country r = c).
  { assert (Hin : r ∈ filter (fun r' => raw_country r' = c) (raw_rows csv))
      by (rewrite Hr; by left).
    by apply list_elem_of_filter in Hin as [? _]. }
  cbn [map]. generalize 0%nat.
  induction (year_columns csv) as [|y ys IH]; intros a; [done|].
  cbn [length seq zip zip_with flat_map map app].
  destruct (IH (S a)) as (IH1 & IH2 & IH3).
  split_and!.
  - cbn [map]. by rewrite IH1.
  - cbn [map]. by rewrite IH2.
  - constructor; [done|exact IH3].
Qed.

Lemma filter_by_country_time_series_witness :
  filter (fun r' => raw_country r' = "Albania") (raw_rows sample_csv)
  = [mkRawRow "Eastern Europe and Central Asia" "Albania" "Flawed democracy"
       [Finite 5.91; Finite 8.01]] /\
  map Year (Data.filter_by_country (Data._setup_data sample_csv) ["Albania"])
  = [2006; 2008].
Proof.
  split; [reflexivity|].
  apply (filter_by_country_time_series sample_csv "Albania"
           (mkRawRow "Eastern Europe and Central Asia" "Albania"
              "Flawed democracy" [Finite 5.91; Finite 8.01])).
  reflexivity.
Defined.

(** ** World and region averages *)

Lemma groupby_mean_observed `{Countable K} (key : Row -> K) (df : DataFrame)
    (k : K) (v : pyfloat) :
  groupby_mean key df !! k = Some v <->
  k ∈ map key df /\ v = mean_of_observed (observed key k df).
Proof.
  rewrite groupby_mean_lookup.
  assert (Hin : filter (fun r => key r = k) df = [] <-> k ∉ map key df).
  { split.
    - intros Hnil (r & -> & Hr)%list_elem_of_fmap.
      assert (Hr' : r ∈ filter (fun r0 => key r0 = key r) df)
        by (by apply list_elem_of_filter).
      rewrite Hnil in Hr'. by apply elem_of_nil in Hr'.
    - intros Hk. destruct (filter _ df) as [|r l] eqn:Hf; [done|].
      assert (Hr : r ∈ filter (fun r => key r = k) df)
        by (rewrite Hf; by left).
      apply list_elem_of_filter in Hr as [<- Hr]. destruct Hk.
      apply list_elem_of_fmap. by exists r. }
  case_decide as Hd.
  - split; [done|]. intros [Hk _]. by apply Hin in Hd.
  - assert (Hk : k ∈ map key df).
    { destruct (decide (k ∈ map key df)); [done|]. by apply Hin in n. }
    unfold mean_of_observed. destruct (observed key k df); cbn [length].
    + split; [by intros [= <-]|by intros [_ ->]].
    + split; [by intros [= <-]|by intros [_ ->]].
Qed.

Lemma StronglySorted_le_lt (l : list Z) :
  StronglySorted Z.le l -> NoDup l -> StronglySorted Z.lt l.
Proof.
  induction 1 as [|x l Hl IH Hx]; intros Hnd; [constructor|].
  apply NoDup_cons in Hnd as [Hxl Hnd]. constructor; [by apply IH|].
  rewrite Forall_forall in Hx |- *. intros y Hy.
  assert (x <> y) by (intros ->; done).
  assert (x ≤ y) by (by apply Hx). lia.
Qed.

Lemma StronglySorted_fmap {A B} (R : relation A) (S : relation B)
    (f : A -> B) (l : list A) :
  (forall x y, R x y -> S (f x) (f y)) ->
  StronglySorted R l -> StronglySorted S (map f l).
Proof.
  intros Hf. induction 1 as [|x l Hl IH Hx]; [constructor|].
  cbn. constructor; [done|]. apply Forall_map. eapply Forall_impl; eauto.
Qed.

(** X6: the world average has exactly one row for each year that occurs
    in the frame, and the years come in strictly increasing order. *)
Theorem get_world_average_years (df : DataFrame) :
  StronglySorted Z.lt (map fst (Data.get_world_average df)) /\
  (forall y, y ∈ map fst (Data.get_world_average df) <-> y ∈ map Year df).
Proof.
  split.
  - apply StronglySorted_le_lt.
    + apply (StronglySorted_fmap year_le); [by intros [] []|].
      apply Sorted_StronglySorted, get_world_average_sorted.
      intros a b c. unfold year_le. lia.
    + unfold Data.get_world_average.
      rewrite merge_sort_Permutation. apply NoDup_fst_map_to_list.
  - intros y. rewrite list_elem_of_fmap. split.
    + intros ([y' v] & -> & Hv).
      apply elem_of_get_world_average, groupby_mean_observed in Hv. tauto.
    + intros Hy. eexists (y, _). split; [done|].
      apply elem_of_get_world_average, groupby_mean_observed. done.
Qed.

(** X7: the world average of a year is the mean of the scores of that
    year that are not NaN; a missing score is skipped, not counted as zero,
    and a year whose scores are all missing has the average NaN. *)
Theorem world_average_skips_nan (df : DataFrame) (y : Z) (v : pyfloat) :
  (y, v) ∈ Data.get_world_average df <->
  y ∈ map Year df /\ v = mean_of_observed (observed Year y df).
Proof.
  rewrite elem_of_get_world_average. apply groupby_mean_observed.
Qed.

Lemma elem_of_get_region_averages (df : DataFrame) (g : string) (y : Z)
    (v : pyfloat) :
  (g, y, v) ∈ Data.get_region_averages df <->
  groupby_mean (fun r => (Region r, Year r)) df !! (g, y) = Some v.
Proof.
  unfold Data.get_region_averages.
  rewrite merge_sort_Permutation. apply elem_of_map_to_list.
Qed.

(** X8: the value the region averages hold for a region and a year is the
    mean of the scores of that region and year that are not NaN; a missing
    score is skipped, and a region whose scores of the year are all missing
    has the average NaN. *)
Theorem region_average_skips_nan (df : DataFrame) (g : string) (y : Z)
    (v : pyfloat) :
  (g, y, v) ∈ Data.get_region_averages df <->
  (exists r, r ∈ df /\ Region r = g /\ Year r = y) /\
  v = mean_of_observed (observed (fun r => (Region r, Year r)) (g, y) df).
Proof.
  rewrite elem_of_get_region_averages, groupby_mean_observed.
  rewrite list_elem_of_fmap. split.
  - intros [(r & [= -> ->] & Hr) ->]. split; [by exists r|done].
  - intros [(r & Hr & <- & <-) ->]. split; [by exists r|done].
Qed.

Lemma region_year_le_total : Total region_year_le.
Proof.
  intros [[g1 y1] v1] [[g2 y2] v2]. unfold region_year_le. cbn.
  destruct (String.compare g1 g2) eqn:Hc.
  - apply String.compare_eq_iff in Hc as ->.
    destruct (Z.le_ge_cases y1 y2); [left|right]; right; split; (done || lia).
  - left. by left.
  - right. left. rewrite String.compare_antisym, Hc. done.
Qed.

(** X9: the region averages are ordered by region, then by year; no pair
    of region and year occurs twice; and a pair occurs exactly when the
    frame has a row with that region and year (regions without a row in a
    year are not listed). *)
Theorem get_region_averages_order (df : DataFrame) :
  Sorted region_year_le (Data.get_region_averages df) /\
  NoDup (map fst (Data.get_region_averages df)) /\
  (forall g y, (g, y) ∈ map fst (Data.get_region_averages df) <->
               exists r, r ∈ df /\ Region r = g /\ Year r = y).
Proof.
  split_and!.
  - apply Sorted_merge_sort, region_year_le_total.
  - unfold Data.get_region_averages.
    rewrite merge_sort_Permutation. apply NoDup_fst_map_to_list.
  - intros g y. rewrite list_elem_of_fmap. split.
    + intros ([[g' y'] v] & [= -> ->] & Hv).
      apply elem_of_get_region_averages, groupby_mean_observed in Hv
        as [(r & [= -> ->] & Hr)%list_elem_of_fmap _].
      by exists r.
    + intros (r & Hr & <- & <-). eexists (_, _, _). split; [done|].
      apply elem_of_get_region_averages, groupby_mean_observed.
      split; [|done]. apply list_elem_of_fmap. by exists r.
Qed.

(** X10: the region average of [g] is the world average of the frame
    filtered by the region [g]: the two functions give the same value for
    every year. *)
Theorem region_average_is_filtered_world_average (df : DataFrame)
    (g : string) (y : Z) (v : pyfloat) :
  (g, y, v) ∈ Data.get_region_averages df <->
  (y, v) ∈ Data.get_world_average (Data.filter_by_region df [g]).
Proof.
  rewrite elem_of_get_region_averages, elem_of_get_world_average.
  rewrite !groupby_mean_observed.
  assert (Hf : filter (fun r => (Region r, Year r) = (g, y)) df
               = filter (fun r => Year r = y) (Data.filter_by_region df [g])).
  { unfold Data.filter_by_region, Data._filter. rewrite list_filter_filter.
    apply list_filter_iff. intros r. rewrite list_elem_of_singleton. split.
    - by intros [= -> ->].
    - by intros [-> ->]. }
  unfold observed. rewrite Hf.
  assert (Hk : (g, y) ∈ map (fun r => (Region r, Year r)) df <->
               y ∈ map Year (Data.filter_by_region df [g])).
  { rewrite !list_elem_of_fmap. split.
    - intros (r & [= -> ->] & Hr). exists r. split; [done|].
      apply list_elem_of_filter. split; [|done]. by left.
    - intros (r & -> & Hr). apply list_elem_of_filter in Hr as [Hg Hr].
      apply list_elem_of_singleton in Hg as <-. by exists r. }
  by rewrite Hk.
Qed.

(** ** The migration matrix, transposed and on the diagonal *)

Lemma zip_with_andb_comm (a b : list bool) :
  zip_with andb a b = zip_with andb b a.
Proof.
  revert b. induction a as [|x a IH]; intros [|y b]; [done..|].
  cbn. by rewrite IH, andb_comm.
Qed.

Lemma broadcast_and_comm (a b : list bool) :
  broadcast_and a b = broadcast_and b a.
Proof.
  unfold broadcast_and.
  destruct (decide (length a = length b)) as [Hab|Hab].
  { rewrite decide_True by done. apply zip_with_andb_comm. }
  rewrite decide_False by done.
  destruct a as [|x [|x' a]], b as [|y [|y' b]];
    try (by destruct Hab); try done;
    apply map_ext; intros z; apply andb_comm.
Qed.

Lemma pair_count_comm (col1 col2 : list string) (r1 r2 : string) :
  pair_count col2 col1 r2 r1 = pair_count col1 col2 r1 r2.
Proof. unfold pair_count. by rewrite broadcast_and_comm. Qed.

Lemma transpose_matrix_of_counts (c : nat -> nat -> nat) :
  transpose (matrix_of_counts c) = matrix_of_counts (fun i j => c j i).
Proof. reflexivity. Qed.

Lemma broadcastable_comm (p q : nat) : broadcastable p q -> broadcastable q p.
Proof. unfold broadcastable. intros [Hpq|[Hp|Hq]]; auto. Qed.

(** X12: swapping the start and the end year transposes the migration
    matrix; and if the builder raises for one order it raises the same
    exception for the other. *)
Theorem migration_matrix_transpose (df : DataFrame) (start_year end_year : Z) :
  match Data.get_migration_matrix df start_year end_year with
  | Ok m => Data.get_migration_matrix df end_year start_year
            = Ok (transpose m)
  | Raise e => Data.get_migration_matrix df end_year start_year = Raise e
  end.
Proof.
  destruct (decide (broadcastable
                      (length (Data.get_yearly_data df start_year))
                      (length (Data.get_yearly_data df end_year))))
    as [Hb|Hb].
  - rewrite (get_migration_matrix_broadcast df start_year end_year Hb).
    rewrite (get_migration_matrix_broadcast df end_year start_year)
      by (by apply broadcastable_comm).
    rewrite transpose_matrix_of_counts. cbv zeta. f_equal.
    unfold matrix_of_counts.
    by rewrite !(pair_count_comm
                   (map RegimeType (Data.get_yearly_data df start_year))).
  - rewrite (get_migration_matrix_not_broadcast df start_year end_year Hb).
    apply get_migration_matrix_not_broadcast.
    intros Hb'. by apply Hb, broadcastable_comm.
Qed.

Lemma regime_inj (i j : nat) :
  (i < 4)%nat -> (j < 4)%nat -> regime i = regime j -> i = j.
Proof.
  intros Hi Hj.
  destruct i as [|[|[|[|]]]]; [| | | |lia];
    destruct j as [|[|[|[|]]]]; try lia; done.
Qed.

Lemma positional_count_diag (df : DataFrame) (r1 r2 : string) :
  positional_count df df r1 r2
  = if decide (r1 = r2)
    then length (filter (fun r => RegimeType r = r1) df) else 0%nat.
Proof.
  induction df as [|x df IH].
  { by case_decide. }
  rewrite positional_count_cons, IH, filter_cons.
  destruct (decide (r1 = r2)) as [<-|Hne].
  - destruct (decide (RegimeType x = r1)) as [Hx|Hx].
    + rewrite decide_True by done. done.
    + rewrite decide_False by (by intros [? _]). done.
  - rewrite decide_False by (intros [? ?]; congruence). done.
Qed.

(** X13: the migration matrix from a year to itself always exists and
    its block is diagonal: cell [(i, i)] counts the rows of category [i] of
    that year, every other block cell is zero. *)
Theorem migration_matrix_same_year (df : DataFrame) (year : Z) :
  exists m,
    Data.get_migration_matrix df year year = Ok m /\
    forall i j, (i < 4)%nat -> (j < 4)%nat ->
      get_item m i j
      = Some (float_of_nat
                (if decide (i = j)
                 then length (filter (fun r => RegimeType r = regime i)
                                (Data.get_yearly_data df year))
                 else 0)).
Proof.
  eexists. split; [by apply get_migration_matrix_equal_length|].
  intros i j Hi Hj. rewrite matrix_of_counts_item by done.
  rewrite positional_count_diag. do 2 f_equal.
  destruct (decide (i = j)) as [->|Hne]; [by rewrite decide_True|].
  rewrite decide_False; [done|]. intros Heq. by apply Hne, regime_inj.
Qed.

(** ** The merged frame *)

Lemma filter_map_geo_matched (P : GeoRow -> Prop) (Q : Row -> Prop)
    `{!forall g, Decision (P g)} `{!forall r, Decision (Q r)}
    (c : ShapeRow) (rs : list Row) :
  (forall r, P (geo_matched c r) <-> Q r) ->
  filter P (map (geo_matched c) rs) = map (geo_matched c) (filter Q rs).
Proof.
  intros HPQ. induction rs as [|r rs IH]; [done|].
  cbn [map]. rewrite !filter_cons, IH.
  destruct (decide (Q r)) as [Hq|Hq].
  - by rewrite decide_True by (by apply HPQ).
  - by rewrite decide_False by (by rewrite HPQ).
Qed.

Lemma filter_none {A} (P : A -> Prop) `{!forall x, Decision (P x)}
    (l : list A) :
  (forall x, ~ P x) -> filter P l = [].
Proof.
  intros HP. induction l as [|z l IHl]; [done|].
  rewrite filter_cons, IHl. by rewrite decide_False.
Qed.

Lemma filter_all {A} (P : A -> Prop) `{!forall x, Decision (P x)}
    (l : list A) :
  (forall x, P x) -> filter P l = l.
Proof.
  intros HP. induction l as [|z l IHl]; [done|].
  rewrite filter_cons, IHl. by rewrite decide_True.
Qed.

Lemma merge_block_year (y : Z) (df : DataFrame) (c : ShapeRow) :
  filter (fun g => geo_year g = Some y)
    (filter (fun g => geo_name g ≠ "Antarctica")
       match filter (fun r => Country r = NAME c) df with
       | [] => [geo_unmatched c]
       | rs => map (geo_matched c) rs
       end)
  = yearly_block y df c.
Proof.
  unfold yearly_block.
  assert (Hconj : filter (fun r => Country r = NAME c /\ Year r = y) df
                  = filter (fun r => Year r = y)
                      (filter (fun r => Country r = NAME c) df)).
  { rewrite list_filter_filter. apply list_filter_iff. intros r. tauto. }
  rewrite Hconj.
  destruct (decide (NAME c = "Antarctica")) as [Ha|Ha].
  - destruct (filter (fun r => Country r = NAME c) df) as [|r rs].
    + rewrite filter_cons, decide_False by (by intros Hn; apply Hn). done.
    + rewrite (filter_map_geo_matched _ (fun _ => False)) by (cbn; tauto).
      by rewrite (filter_none (fun _ => False)) by tauto.
  - destruct (filter (fun r => Country r = NAME c) df) as [|r rs].
    + rewrite filter_cons, decide_True by done.
      rewrite filter_cons, decide_False by done. done.
    + rewrite (filter_map_geo_matched _ (fun _ => True)) by (cbn; tauto).
      rewrite (filter_all (fun _ => True)) by tauto.
      apply filter_map_geo_matched. intros r'. cbn. split; congruence.
Qed.

Lemma merged_year_blocks (countries : list ShapeRow) (df : DataFrame) (y : Z) :
  merged_year countries df y
  = flat_map (yearly_block y df) (map aliased countries).
Proof.
  unfold merged_year, Data.get_merged_dataframe, merge_left.
  fold alias. change (map _ countries) with (map aliased countries).
  rewrite !filter_flat_map. apply flat_map_ext. intros c.
  apply merge_block_year.
Qed.

Lemma replace_value_cons (a b : string) (tr v : list string) (x : string) :
  replace_value (a :: tr) (b :: v) x
  = if decide (a = x) then b else replace_value tr v x.
Proof.
  unfold replace_value. cbn [zip zip_with list_find fst].
  case_decide; [done|]. by destruct (list_find _ _) as [[? [? ?]]|].
Qed.

Lemma replace_value_notin (tr v : list string) (x : string) :
  x ∉ tr -> replace_value tr v x = x.
Proof.
  revert v. induction tr as [|a tr IH]; intros [|b v] Hx; try done.
  apply not_elem_of_cons in Hx as [Hxa Hx].
  rewrite replace_value_cons, decide_False by done. by apply IH.
Qed.

Lemma replace_value_in (tr v : list string) (i : nat) (a b : string) :
  NoDup tr -> tr !! i = Some a -> v !! i = Some b ->
  replace_value tr v a = b.
Proof.
  revert v i. induction tr as [|a0 tr IH]; intros [|b0 v] i Hnd Ha Hb;
    try done.
  apply NoDup_cons in Hnd as [Ha0 Hnd]. rewrite replace_value_cons.
  destruct i as [|i]; simplify_eq/=.
  - by rewrite decide_True.
  - rewrite decide_False; [by eapply IH|].
    intros ->. apply Ha0. by eapply list_elem_of_lookup_2.
Qed.

Lemma to_replace_NoDup : NoDup Data.to_replace.
Proof. apply (bool_decide_unpack _). vm_compute. reflexivity. Qed.

Lemma value_not_replaced : Forall (fun b => b ∉ Data.to_replace) Data.value.
Proof. apply (bool_decide_unpack _). vm_compute. reflexivity. Qed.

Lemma alias_not_replaced (x : string) : alias x ∉ Data.to_replace.
Proof.
  unfold alias. destruct (decide (x ∈ Data.to_replace)) as [Hx|Hx].
  - apply list_elem_of_lookup_1 in Hx as [i Hi].
    assert (Hlt : (i < length Data.value)%nat)
      by (apply lookup_lt_Some in Hi; exact Hi).
    apply lookup_lt_is_Some_2 in Hlt as [b Hb].
    rewrite (replace_value_in _ _ i x b to_replace_NoDup Hi Hb).
    pose proof value_not_replaced as Hv. rewrite Forall_forall in Hv.
    by eapply Hv, list_elem_of_lookup_2.
  - by rewrite replace_value_notin.
Qed.

Lemma elem_of_merge_left (left : list ShapeRow) (right : DataFrame)
    (g : GeoRow) :
  g ∈ merge_left left right <->
  exists c, c ∈ left /\
    ((g = geo_unmatched c /\ forall r, r ∈ right -> Country r ≠ NAME c) \/
     (exists r, r ∈ right /\ Country r = NAME c /\ g = geo_matched c r)).
Proof.
  unfold merge_left. rewrite list_elem_of_In, in_flat_map.
  split.
  - intros (c & Hc & Hg). exists c. apply list_elem_of_In in Hc, Hg.
    split; [done|].
    destruct (filter (fun r => Country r = NAME c) right) as [|r0 rs] eqn:Hf.
    + apply list_elem_of_singleton in Hg as ->. left. split; [done|].
      intros r Hr Hrc.
      assert (Hin : r ∈ filter (fun r => Country r = NAME c) right)
        by (by apply list_elem_of_filter).
      rewrite Hf in Hin. by apply elem_of_nil in Hin.
    + right. apply list_elem_of_fmap in Hg as (r & -> & Hr).
      rewrite <- Hf in Hr. apply list_elem_of_filter in Hr as [Hrc Hr].
      by exists r.
  - intros (c & Hc & Hg). exists c. rewrite <- !list_elem_of_In.
    split; [done|].
    destruct Hg as [[-> Hnone]|(r & Hr & Hrc & ->)].
    + destruct (filter (fun r => Country r = NAME c) right) as [|r0 rs]
        eqn:Hf; [by left|].
      assert (Hin : r0 ∈ filter (fun r => Country r = NAME c) right)
        by (rewrite Hf; by left).
      apply list_elem_of_filter in Hin as [Hrc Hin]. by destruct (Hnone r0).
    + assert (Hin : r ∈ filter (fun r => Country r = NAME c) right)
        by (by apply list_elem_of_filter).
      destruct (filter _ right) as [|r0 rs]; [by apply elem_of_nil in Hin|].
      apply list_elem_of_fmap. by exists r.
Qed.

(** X14: the merged frame is a left join: every shape has at least one
    merged row, under its data name and with its geometry; and every merged
    row comes from a shape and is either a row without data (year, country
    and score missing, and no data row bears the shape's name) or the shape
    joined with a data row of the same country name. *)
Theorem merged_dataframe_is_left_join (countries : list ShapeRow)
    (df : DataFrame) :
  (forall c, c ∈ countries ->
     exists g, g ∈ Data.get_merged_dataframe countries df /\
               geo_name g = alias (NAME c) /\ geo_geometry g = geometry c) /\
  (forall g, g ∈ Data.get_merged_dataframe countries df ->
     exists c, c ∈ countries /\
       geo_name g = alias (NAME c) /\ geo_geometry g = geometry c /\
       ((geo_year g = None /\ geo_country g = None /\ geo_index g = NaN /\
         forall r, r ∈ df -> Country r ≠ geo_name g) \/
        (exists r, r ∈ df /\ Country r = geo_name g /\
                   g = geo_matched (aliased c) r))).
Proof.
  unfold Data.get_merged_dataframe. fold alias.
  change (map _ countries) with (map aliased countries). split.
  - intros c Hc.
    destruct (filter (fun r => Country r = alias (NAME c)) df) as [|r rs]
      eqn:Hf.
    + exists (geo_unmatched (aliased c)). split; [|done].
      apply elem_of_merge_left. exists (aliased c).
      split; [by apply list_elem_of_fmap_2|]. left. split; [done|].
      intros r Hr Hrc.
      assert (Hin : r ∈ filter (fun r => Country r = alias (NAME c)) df)
        by (by apply list_elem_of_filter).
      rewrite Hf in Hin. by apply elem_of_nil in Hin.
    + assert (Hin : r ∈ filter (fun r => Country r = alias (NAME c)) df)
        by (rewrite Hf; by left).
      apply list_elem_of_filter in Hin as [Hrc Hr].
      exists (geo_matched (aliased c) r). split; [|done].
      apply elem_of_merge_left. exists (aliased c).
      split; [by apply list_elem_of_fmap_2|]. right. by exists r.
  - intros g (c' & (c & -> & Hc)%list_elem_of_fmap & Hg)%elem_of_merge_left.
    exists c. split; [done|].
    destruct Hg as [[-> Hnone]|(r & Hr & Hrc & ->)].
    + split_and!; [done|done|]. by left.
    + split_and!; [done|done|]. right. by exists r.
Qed.

(** X15: the renaming before the merge maps the [i]-th name to replace
    to the [i]-th value, leaves every other name alone, and is idempotent;
    so no row of the merged frame bears a name of the list to replace. *)
Theorem merged_names_are_aliased :
  (forall i a b, Data.to_replace !! i = Some a -> Data.value !! i = Some b ->
                 alias a = b) /\
  (forall x, x ∉ Data.to_replace -> alias x = x) /\
  (forall x, alias (alias x) = alias x) /\
  (forall countries df g,
     g ∈ Data.get_merged_dataframe countries df ->
     geo_name g ∉ Data.to_replace).
Proof.
  split_and!.
  - intros i a b Ha Hb.
    exact (replace_value_in _ _ i a b to_replace_NoDup Ha Hb).
  - intros x Hx. by apply replace_value_notin.
  - intros x. apply replace_value_notin, alias_not_replaced.
  - intros countries df g Hg. unfold Data.get_merged_dataframe in Hg.
    apply elem_of_merge_left in Hg
      as (c' & (c & -> & Hc)%list_elem_of_fmap & Hg).
    destruct Hg as [[-> _]|(r & _ & _ & ->)];
      exact (alias_not_replaced (NAME c)).
Qed.

Lemma map_flat_map {A B C} (f : B -> C) (h : A -> list B) (l : list A) :
  map f (flat_map h l) = flat_map (fun x => map f (h x)) l.
Proof.
  induction l as [|x l IH]; [done|]. cbn. by rewrite map_app, IH.
Qed.

Lemma remap_yearly_block (y : Z) (df : DataFrame) (c : ShapeRow) :
  map Data.remap_geo_regime_type (yearly_block y df c) = yearly_join y df c.
Proof.
  unfold yearly_block, yearly_join, Data.get_yearly_data.
  case_decide; [done|]. rewrite map_map.
  induction df as [|r df IH]; [done|].
  rewrite !filter_cons.
  destruct (decide (Year r = y)) as [Hy|Hy].
  - cbn [map]. rewrite filter_cons. cbn [Data.remap_regime_type Country].
    destruct (decide (Country r = NAME c)) as [Hc|Hc].
    + rewrite decide_True by done. cbn [map]. by rewrite IH.
    + rewrite decide_False by (by intros [? _]). exact IH.
  - rewrite decide_False by (by intros [_ ?]). exact IH.
Qed.

Lemma get_yearly_data_row (df : DataFrame) (y : Z) (r : Row) :
  r ∈ Data.get_yearly_data df y ->
  RegimeType r = Data.assign_regime_type (DemocracyIndex r) /\ Year r = y.
Proof.
  unfold Data.get_yearly_data.
  intros (r0 & -> & Hr0)%list_elem_of_fmap.
  by apply list_elem_of_filter in Hr0 as [Hy _].
Qed.

(** X16: the yearly geographic frame joins each shape, Antarctica left
    out, with the rows of its country in the yearly frame; every row has the
    requested year, a country equal to the shape's name, and the category of
    its own score.  Shapes without data for the year have no row. *)
Theorem yearly_geographic_data_is_join (countries : list ShapeRow)
    (df : DataFrame) (year : Z) :
  Data.get_yearly_geographic_data countries df year
  = flat_map (yearly_join year df) (map aliased countries) /\
  Forall (fun g => geo_year g = Some year /\
                   geo_name g ≠ "Antarctica" /\
                   geo_country g = Some (geo_name g) /\
                   geo_regime g
                   = Some (Data.assign_regime_type (geo_index g)))
    (Data.get_yearly_geographic_data countries df year).
Proof.
  assert (Heq : Data.get_yearly_geographic_data countries df year
                = flat_map (yearly_join year df) (map aliased countries)).
  { unfold Data.get_yearly_geographic_data.
    change (filter _ (filter _ (Data.get_merged_dataframe countries df)))
      with (merged_year countries df year).
    rewrite merged_year_blocks, map_flat_map.
    apply flat_map_ext. intros c. apply remap_yearly_block. }
  split; [exact Heq|]. rewrite Heq. apply Forall_forall. intros g Hg.
  apply list_elem_of_In, in_flat_map in Hg as (c & _ & Hg).
  apply list_elem_of_In in Hg. unfold yearly_join in Hg.
  case_decide as Hn; [by apply elem_of_nil in Hg|].
  apply list_elem_of_fmap in Hg as (r & -> & Hr).
  apply list_elem_of_filter in Hr as [Hrc Hr].
  apply get_yearly_data_row in Hr as (Hreg & Hy).
  cbn. rewrite Hreg, Hy, Hrc. done.
Qed.

(** ** The index change *)

Lemma index_change_unfold (countries : list ShapeRow) (df : DataFrame)
    (s e : Z) :
  Data.get_index_change_geographic_data countries df s e
  = (index_change ←
       np_sub (map geo_index (merged_year countries df e))
              (map geo_index (merged_year countries df s));
     set_column (merged_year countries df e) index_change).
Proof. reflexivity. Qed.

Lemma np_sub_set_column {A} (E : list A) (a b : list pyfloat) :
  length a = length E ->
  ((exists l, (ic ← np_sub a b; set_column E ic) = Ok l) <->
   (length a = length b \/ length b = 1%nat)) /\
  (forall err, (ic ← np_sub a b; set_column E ic) = Raise err ->
               exists msg, err = ValueError msg).
Proof.
  intros HaE. unfold np_sub, set_column.
  destruct (decide (length a = length b)) as [Hab|Hab].
  { cbn. rewrite decide_True
      by (by rewrite length_zip_with, <- Hab, Nat.min_id).
    split; [|done]. split; [by left|]. intros _. by eexists. }
  destruct a as [|x [|x' a]], b as [|y [|y' b]]; cbn in Hab |- *;
    try (by destruct Hab).
  all: repeat (rewrite ?length_map; cbn [length]).
  all: try (rewrite decide_True by (cbn in HaE |- *; lia)).
  all: try (rewrite decide_False by (cbn in HaE |- *; lia)).
  all: split;
    [split;
       [intros [l Hl]; try discriminate Hl; try (right; reflexivity)
       |intros [Hc|Hc]; first [lia | discriminate Hc | by eexists]]
    |intros err [= <-]; by eexists].
Qed.

(** X17: the index change returns exactly when the merged frame has as
    many rows for the end year as for the start year, or a single row for
    the start year; every other case ends in a ValueError (from the
    subtraction of the two arrays, or from the assignment of a column of the
    wrong length). *)
Theorem index_change_failure_modes (countries : list ShapeRow)
    (df : DataFrame) (start_year end_year : Z) :
  ((exists l, Data.get_index_change_geographic_data countries df
                start_year end_year = Ok l) <->
   (length (merged_year countries df end_year)
    = length (merged_year countries df start_year) \/
    length (merged_year countries df start_year) = 1%nat)) /\
  (forall err, Data.get_index_change_geographic_data countries df
                 start_year end_year = Raise err ->
               exists msg, err = ValueError msg).
Proof.
  rewrite index_change_unfold.
  pose proof (np_sub_set_column (merged_year countries df end_year)
                (map geo_index (merged_year countries df end_year))
                (map geo_index (merged_year countries df start_year))
                (length_map _ _)) as Hsub.
  by rewrite !length_map in Hsub.
Qed.

Lemma yearly_blocks_aligned (df : DataFrame) (s e : Z) (c : ShapeRow) :
  length (filter (fun r => Country r = NAME c /\ Year r = s) df)
  = length (filter (fun r => Country r = NAME c /\ Year r = e) df) ->
  Forall2 (same_country_rows df s e) (yearly_block e df c)
    (yearly_block s df c).
Proof.
  unfold yearly_block. case_decide; [constructor|].
  assert (H2 : Forall (fun r => r ∈ df /\ Country r = NAME c /\ Year r = e)
                 (filter (fun r => Country r = NAME c /\ Year r = e) df)).
  { apply Forall_forall. intros r [[? ?] ?]%list_elem_of_filter. done. }
  assert (H1 : Forall (fun r => r ∈ df /\ Country r = NAME c /\ Year r = s)
                 (filter (fun r => Country r = NAME c /\ Year r = s) df)).
  { apply Forall_forall. intros r [[? ?] ?]%list_elem_of_filter. done. }
  revert H1 H2.
  generalize (filter (fun r => Country r = NAME c /\ Year r = s) df) as l1.
  generalize (filter (fun r => Country r = NAME c /\ Year r = e) df) as l2.
  intros l2. induction l2 as [|r2 l2 IH]; intros [|r1 l1] H1 H2 Hlen;
    try discriminate Hlen; [constructor|].
  apply Forall_cons in H1 as [(Hr1 & Hc1 & Hy1) Hl1].
  apply Forall_cons in H2 as [(Hr2 & Hc2 & Hy2) Hl2].
  injection Hlen as Hlen.
  cbn [map]. constructor; [|by apply IH].
  by exists c, r1, r2.
Qed.

Lemma merged_years_aligned (countries : list ShapeRow) (df : DataFrame)
    (s e : Z) :
  (forall n, length (filter (fun r => Country r = n /\ Year r = s) df)
             = length (filter (fun r => Country r = n /\ Year r = e) df)) ->
  Forall2 (same_country_rows df s e) (merged_year countries df e)
    (merged_year countries df s).
Proof.
  intros Hbal. rewrite !merged_year_blocks.
  induction (map aliased countries) as [|c cs IH]; [constructor|].
  cbn [flat_map]. apply Forall2_app; [|exact IH].
  apply yearly_blocks_aligned, Hbal.
Qed.

Lemma zip_differences (df : DataFrame) (s e : Z) (E S : list GeoRow) :
  Forall2 (same_country_rows df s e) E S ->
  map fst (zip E (zip_with fsub (map geo_index E) (map geo_index S))) = E /\
  Forall (fun p : GeoRow * pyfloat =>
            exists r1 r2,
              r1 ∈ df /\ r2 ∈ df /\
              Country r1 = geo_name p.1 /\ Year r1 = s /\
              Country r2 = geo_name p.1 /\ Year r2 = e /\
              geo_index p.1 = DemocracyIndex r2 /\
              p.2 = fsub (DemocracyIndex r2) (DemocracyIndex r1))
    (zip E (zip_with fsub (map geo_index E) (map geo_index S))).
Proof.
  induction 1 as [|g g' E S Hg HES [IH1 IH2]]; [by split|].
  cbn [map zip_with]. split; [cbn; by rewrite IH1|].
  constructor; [|exact IH2].
  destruct Hg as (c & r1 & r2 & -> & -> & Hr1 & Hr2 & Hc1 & Hy1 & Hc2 & Hy2).
  exists r1, r2. cbn. done.
Qed.

(** X18: when every country has as many rows in the start year as in the
    end year, the index change returns the merged rows of the end year, and
    the change of each row is the end-year score minus the start-year score
    of two rows of that row's country. *)
Theorem index_change_is_difference (countries : list ShapeRow)
    (df : DataFrame) (start_year end_year : Z) :
  (forall n,
     length (filter (fun r => Country r = n /\ Year r = start_year) df)
     = length (filter (fun r => Country r = n /\ Year r = end_year) df)) ->
  exists l,
    Data.get_index_change_geographic_data countries df start_year end_year
    = Ok l /\
    map fst l = merged_year countries df end_year /\
    Forall (fun p : GeoRow * pyfloat =>
              exists r1 r2,
                r1 ∈ df /\ r2 ∈ df /\
                Country r1 = geo_name p.1 /\ Year r1 = start_year /\
                Country r2 = geo_name p.1 /\ Year r2 = end_year /\
                geo_index p.1 = DemocracyIndex r2 /\
                p.2 = fsub (DemocracyIndex r2) (DemocracyIndex r1))
      l.
Proof.
  intros Hbal.
  pose proof (merged_years_aligned countries df start_year end_year Hbal)
    as Hal.
  pose proof (Forall2_length _ _ _ Hal) as Hlen.
  rewrite index_change_unfold. unfold np_sub, set_column.
  rewrite decide_True by (by rewrite !length_map).
  cbn [mbind pyresult_bind].
  rewrite decide_True
    by (by rewrite length_zip_with, !length_map, <- Hlen, Nat.min_id).
  eexists. split; [reflexivity|]. by apply zip_differences.
Qed.

Lemma setup_data_balanced (csv : RawTable) (s e : Z) :
  NoDup (year_columns csv) ->
  s ∈ year_columns csv -> e ∈ year_columns csv ->
  forall n,
    length (filter (fun r => Country r = n /\ Year r = s)
              (Data._setup_data csv))
    = length (filter (fun r => Country r = n /\ Year r = e)
                (Data._setup_data csv)).
Proof.
  intros Hnd Hs He n.
  assert (Hlen : forall y, y ∈ year_columns csv ->
            length (filter (fun r => Country r = n /\ Year r = y)
                      (Data._setup_data csv))
            = length (filter (fun r => raw_country r = n) (raw_rows csv))).
  { intros y [k Hk]%list_elem_of_lookup_1.
    assert (Hconj : filter (fun r => Country r = n /\ Year r = y)
                      (Data._setup_data csv)
                    = filter (fun r => Country r = n)
                        (filter (fun r => Year r = y) (Data._setup_data csv))).
    { by rewrite list_filter_filter. }
    rewrite Hconj. unfold Data._setup_data, enumerate.
    rewrite (filter_year_melt _ _ 0 k y Hnd Hk).
    induction (raw_rows csv) as [|r rows IH]; [done|].
    cbn [map]. rewrite !filter_cons. cbn [Data.melt_row Country].
    case_decide; cbn [length]; by rewrite IH. }
  by rewrite (Hlen s), (Hlen e).
Qed.

Lemma index_change_is_difference_witness :
  (forall n,
     length (filter (fun r => Country r = n /\ Year r = 2006)
               (Data._setup_data sample_csv))
     = length (filter (fun r => Country r = n /\ Year r = 2008)
                 (Data._setup_data sample_csv))) /\
  exists l,
    Data.get_index_change_geographic_data sample_shapes
      (Data._setup_data sample_csv) 2006 2008 = Ok l /\
    map fst l = merged_year sample_shapes (Data._setup_data sample_csv) 2008 /\
    Forall (fun p : GeoRow * pyfloat =>
              exists r1 r2,
                r1 ∈ Data._setup_data sample_csv /\
                r2 ∈ Data._setup_data sample_csv /\
                Country r1 = geo_name p.1 /\ Year r1 = 2006 /\
                Country r2 = geo_name p.1 /\ Year r2 = 2008 /\
                geo_index p.1 = DemocracyIndex r2 /\
                p.2 = fsub (DemocracyIndex r2) (DemocracyIndex r1))
      l.
Proof.
  assert (Hbal : forall n,
            length (filter (fun r => Country r = n /\ Year r = 2006)
                      (Data._setup_data sample_csv))
            = length (filter (fun r => Country r = n /\ Year r = 2008)
                        (Data._setup_data sample_csv))).
  { apply setup_data_balanced;
      apply (bool_decide_unpack _); vm_compute; reflexivity. }
  split; [exact Hbal|].
  exact (index_change_is_difference sample_shapes
           (Data._setup_data sample_csv) 2006 2008 Hbal).
Defined.

Lemma zip_with_fsub_diag (l : list GeoRow) :
  zip l (zip_with fsub (map geo_index l) (map geo_index l))
  = map (fun g => (g, fsub (geo_index g) (geo_index g))) l.
Proof. induction l as [|g l IH]; [done|]. cbn. by rewrite IH. Qed.

Lemma fsub_diag (x : pyfloat) :
  match x with
  | Finite q => exists d, fsub x x = Finite d /\ (d == 0)%Q
  | _ => fsub x x = NaN
  end.
Proof.
  destruct x as [q| | |]; try done. exists 0%Q. split; [|done].
  cbn [fsub]. rewrite (round64_Qeq (q - q) 0) by ring. reflexivity.
Qed.

(** X19: the index change from a year to itself always returns; the
    change is zero for every row with a finite score and NaN for a row
    whose score is missing or infinite. *)
Theorem index_change_same_year (countries : list ShapeRow) (df : DataFrame)
    (year : Z) :
  exists l,
    Data.get_index_change_geographic_data countries df year year = Ok l /\
    map fst l = merged_year countries df year /\
    Forall (fun p : GeoRow * pyfloat =>
              match geo_index p.1 with
              | Finite _ => exists d, p.2 = Finite d /\ (d == 0)%Q
              | _ => p.2 = NaN
              end) l.
Proof.
  rewrite index_change_unfold. unfold np_sub, set_column.
  rewrite decide_True by done. cbn [mbind pyresult_bind].
  rewrite decide_True by (by rewrite length_zip_with, !length_map, Nat.min_id).
  eexists. split; [reflexivity|]. rewrite zip_with_fsub_diag. split.
  - rewrite map_map. apply map_id.
  - apply Forall_forall. intros p (g & -> & _)%list_elem_of_fmap.
    cbn [fst snd]. apply fsub_diag.
Qed.

(** ** The table written by [get_raw_data] *)

Lemma prefix_has_byte (c : Ascii.ascii) (old s : string) :
  String.prefix old s = true -> has_byte c old -> has_byte c s.
Proof.
  unfold has_byte. revert s. induction old as [|a old IH]; intros s Hp Hc.
  { by apply elem_of_nil in Hc. }
  destruct s as [|b s]; [discriminate Hp|].
  cbn in Hp. destruct (Ascii.ascii_dec a b) as [->|]; [|discriminate Hp].
  cbn in Hc |- *. apply elem_of_cons in Hc as [->|Hc]; [by left|].
  right. by apply IH.
Qed.

Lemma str_replace_without_byte (c : Ascii.ascii) (old new s : string) :
  has_byte c old -> ~ has_byte c s -> str_replace old new s = s.
Proof.
  intros Hold. unfold str_replace.
  induction s as [|b s IH]; intros Hs; [done|].
  cbn [str_replace_from].
  destruct (String.prefix old (String b s)) eqn:Hp.
  { destruct Hs. by eapply prefix_has_byte. }
  rewrite IH; [done|]. intros Hc. apply Hs. unfold has_byte in *.
  cbn. by right.
Qed.

Lemma clean_cell_without_soft_hyphen (s : string) :
  ~ has_byte soft_hyphen_byte s -> Data.clean_cell (CStr s) = CStr s.
Proof.
  intros Hs. unfold Data.clean_cell.
  assert (Hold : forall a b,
            has_byte soft_hyphen_byte (a +:+ soft_hyphen +:+ b)).
  { intros a b. unfold has_byte.
    induction a as [|x a IH]; cbn; [by left|by right]. }
  rewrite (str_replace_without_byte soft_hyphen_byte _ _ s) by auto.
  by rewrite (str_replace_without_byte soft_hyphen_byte _ _ s) by auto.
Qed.

Lemma get_raw_data_written (html : list HtmlTable) (t : HtmlTable) :
  html !! 5%nat = Some t ->
  Data.get_raw_data html
  = ([PageFetched "The_Economist_Democracy_Index";
      CsvWritten "data/raw/democracy_index.csv" (written_table t)], Ok tt).
Proof.
  destruct html as [|t0 [|t1 [|t2 [|t3 [|t4 [|t5 html]]]]]]; try done.
  by intros [= ->].
Qed.

(** X20: on a page with a table at index 5 the fetch writes a table of
    the same shape: as many columns, the column "Regime type" renamed to
    "RegimeType" and no other column renamed, and rows of the same
    lengths. *)
Theorem get_raw_data_keeps_shape (html : list HtmlTable) (t : HtmlTable) :
  html !! 5%nat = Some t ->
  exists csv,
    Data.get_raw_data html
    = ([PageFetched "The_Economist_Democracy_Index";
        CsvWritten "data/raw/democracy_index.csv" csv], Ok tt) /\
    length (columns csv) = length (columns t) /\
    ("Regime type" ∉ columns csv) /\
    (forall i c, columns t !! i = Some c ->
       columns csv !! i
       = Some (if decide (c = "Regime type") then "RegimeType" else c)) /\
    map length (body csv) = map length (body t).
Proof.
  intros Ht. exists (written_table t).
  split; [by apply get_raw_data_written|].
  unfold written_table, Data.rename_columns. cbn [columns body].
  split_and!.
  - by rewrite length_map.
  - intros (c & Hc & _)%list_elem_of_fmap.
    destruct (String.eqb_spec c "Regime type"); [discriminate Hc|].
    congruence.
  - intros i c Hi. rewrite list_lookup_fmap, Hi. cbn. f_equal.
    destruct (String.eqb_spec c "Regime type"); by case_decide.
  - rewrite map_map. apply map_ext. intros row. by rewrite length_map.
Qed.

Lemma get_raw_data_keeps_shape_witness :
  sample_page !! 5%nat = Some sample_table /\
  exists csv,
    Data.get_raw_data sample_page
    = ([PageFetched "The_Economist_Democracy_Index";
        CsvWritten "data/raw/democracy_index.csv" csv], Ok tt) /\
    length (columns csv) = length (columns sample_table) /\
    ("Regime type" ∉ columns csv) /\
    (forall i c, columns sample_table !! i = Some c ->
       columns csv !! i
       = Some (if decide (c = "Regime type") then "RegimeType" else c)) /\
    map length (body csv) = map length (body sample_table).
Proof.
  split; [reflexivity|].
  apply (get_raw_data_keeps_shape sample_page sample_table). reflexivity.
Defined.

(** X21: cleaning changes only texts that hold a soft hyphen: a number,
    or a text without the first byte of a soft hyphen, is written as it was
    read, at the same place; a table of such cells is written with its body
    unchanged. *)
Theorem get_raw_data_keeps_clean_cells (html : list HtmlTable)
    (t : HtmlTable) :
  html !! 5%nat = Some t ->
  exists csv,
    Data.get_raw_data html
    = ([PageFetched "The_Economist_Democracy_Index";
        CsvWritten "data/raw/democracy_index.csv" csv], Ok tt) /\
    (forall i j row x,
       body t !! i = Some row -> row !! j = Some x -> clean_already x ->
       exists row', body csv !! i = Some row' /\ row' !! j = Some x) /\
    (Forall (Forall clean_already) (body t) -> body csv = body t).
Proof.
  intros Ht. exists (written_table t).
  split; [by apply get_raw_data_written|].
  assert (Hcell : forall x, clean_already x -> Data.clean_cell x = x).
  { intros [s|x] Hx; [by apply clean_cell_without_soft_hyphen|done]. }
  unfold written_table. cbn [body]. split.
  - intros i j row x Hi Hj Hx. exists (map Data.clean_cell row).
    rewrite !list_lookup_fmap, Hi, Hj. cbn. by rewrite Hcell.
  - intros Hall. induction Hall as [|row rows Hrow Hrows IH]; [done|].
    cbn [map]. f_equal; [|exact IH].
    induction Hrow as [|x xs Hx Hxs IHx]; [done|].
    cbn [map]. by rewrite Hcell, IHx.
Qed.

Lemma get_raw_data_keeps_clean_cells_witness :
  sample_page !! 5%nat = Some sample_table /\
  exists csv,
    Data.get_raw_data sample_page
    = ([PageFetched "The_Economist_Democracy_Index";
        CsvWritten "data/raw/democracy_index.csv" csv], Ok tt) /\
    (forall i j row x,
       body sample_table !! i = Some row -> row !! j = Some x ->
       clean_already x ->
       exists row', body csv !! i = Some row' /\ row' !! j = Some x) /\
    (Forall (Forall clean_already) (body sample_table) ->
     body csv = body sample_table).
Proof.
  split; [reflexivity|].
  apply (get_raw_data_keeps_clean_cells sample_page sample_table).
  reflexivity.
Defined.
